(** * leadfoot-driver: the bounded poller and the selector-path resolver

    A shallow embedding of [src/wait-for.js] (the function [waitFor]) and of
    [Driver.prototype._$] from [src/index.js], with the properties of the
    specification proved, or refuted, against it.

    Conventions of the embedding.
    - A JavaScript function that returns a promise is a state-passing function
      whose result is an [Outcome]: the way its promise settles ([Fulfilled],
      [Rejected], [Pending] for a promise that never settles) or [Thrown] when
      the call raises synchronously before any promise exists.
    - [promise.then(cb)] is [then_]: the callback runs only on fulfilment, a
      rejection passes through, an exception raised by the callback rejects
      the derived promise, and a promise returned by the callback is adopted.
    - Times are integer milliseconds ([Z]); a number is an integer or [NaN]
      (what [undefined - delay] evaluates to).
    - [None] as the result of a computation means that the model gives no
      answer: the recursion budget ([fuel]) of [waitFor] ran out, or the
      resolver met a path outside the modelled fragment. *)

From Stdlib Require Import ZArith Ascii String List Bool Lia DecimalString.
Import ListNotations.

Local Open Scope string_scope.
Local Open Scope Z_scope.

(* ------------------------------------------------------------------------ *)
(** ** JavaScript values, promises and the state monad *)

Module Js.

(** Numbers as far as the poller needs them. *)
Inductive JsNumber : Type :=
| Num (z : Z)
| NaN.

(** [a - b] for a number [a] and an integer [b]. *)
Definition sub (a : JsNumber) (b : Z) : JsNumber :=
  match a with
  | Num z => Num (z - b)
  | NaN => NaN
  end.

(** [a <= 0]; every comparison with [NaN] is false. *)
Definition leb0 (a : JsNumber) : bool :=
  match a with
  | Num z => z <=? 0
  | NaN => false
  end.

Inductive JsValue : Type :=
| JUndefined
| JNull
| JBool (b : bool)
| JNumber (n : JsNumber)
| JString (s : string)
| JError (message : string)     (* an [Error] object, [new Error(message)] *)
| JObject (id : nat).           (* any other object *)

(** ToBoolean. *)
Definition truthy (v : JsValue) : bool :=
  match v with
  | JUndefined | JNull => false
  | JBool b => b
  | JNumber (Num z) => negb (z =? 0)
  | JNumber NaN => false
  | JString s => negb (s =? "")%string
  | JError _ | JObject _ => true
  end.

(** How a call that returns a promise ends. *)
Inductive Outcome (A : Type) : Type :=
| Fulfilled (a : A)
| Rejected (reason : JsValue)
| Pending
| Thrown (reason : JsValue).

Arguments Fulfilled {A} a.
Arguments Rejected {A} reason.
Arguments Pending {A}.
Arguments Thrown {A} reason.

(** State passing over a world [W]. *)
Definition St (W A : Type) : Type := W -> option (A * W).

Definition ret {W A} (a : A) : St W A := fun w => Some (a, w).

Definition bind {W A B} (m : St W A) (k : A -> St W B) : St W B :=
  fun w =>
    match m w with
    | Some (a, w') => k a w'
    | None => None
    end.

(** What [then] makes of the way its callback ends: an exception raised
    inside the callback rejects the derived promise; a returned promise is
    adopted as it is. *)
Definition asRejection {W B} (x : option (Outcome B * W))
    : option (Outcome B * W) :=
  match x with
  | Some (Thrown r, w) => Some (Rejected r, w)
  | _ => x
  end.

(** [p.then(cb)]. *)
Definition then_ {W A B}
    (p : St W (Outcome A)) (cb : A -> St W (Outcome B)) : St W (Outcome B) :=
  fun w =>
    match p w with
    | Some (Fulfilled a, w') => asRejection (cb a w')
    | Some (Rejected r, w') => Some (Rejected r, w')
    | Some (Pending, w') => Some (Pending, w')
    | Some (Thrown r, w') => Some (Thrown r, w')
    | None => None
    end.

End Js.

Import Js.

Declare Scope js_scope.
Delimit Scope js_scope with js.
Notation "x <- m ;; k" := (bind m (fun x => k))
  (at level 100, m at next level, right associativity) : js_scope.
Local Open Scope js_scope.

(* ------------------------------------------------------------------------ *)
(** ** src/wait-for.js *)

Module WaitFor.

(** The [options] object: a key that is absent is [None]. *)
Record Options : Type := mkOptions {
  timeout : option JsNumber;
  errorMsg : option string
}.

(** What one run observes of its environment: how many times the clock was
    read and how many times [conditionFn] was invoked. *)
Record World : Type := mkWorld {
  reads : nat;
  calls : nat
}.

(** [a || b] for an optional string [a]: [undefined] and the empty string
    are falsy. *)
Definition orElse (a : option string) (b : string) : string :=
  match a with
  | Some s => if (s =? "")%string then b else s
  | None => b
  end.

Section Environment.

(** [clock i] is the value of the [i]-th evaluation of
    [new Date().getTime()] in the run, [poll i] the way the promise of the
    [i]-th invocation of [conditionFn] ends (both counted from 0). *)
Variable clock : nat -> Z.
Variable poll : nat -> Outcome JsValue.

Definition getTime : St World Z :=
  fun w => Some (clock (reads w), mkWorld (S (reads w)) (calls w)).

Definition conditionFn : St World (Outcome JsValue) :=
  fun w => Some (poll (calls w), mkWorld (reads w) (S (calls w))).

(** The body of [waitFor]; [self] is the recursive call of line 51. *)
Definition waitFor_body
    (self : option Options -> St World (Outcome JsValue))
    (options : option Options) : St World (Outcome JsValue) :=
  start <- getTime ;;
  let options := match options with Some o => o | None => mkOptions None None end in
  let timeout := match timeout options with Some t => t | None => Num 1000 end in
  let errorMsg := orElse (errorMsg options) "Timeout" in
  then_ conditionFn (fun result =>
    if truthy result then ret (Fulfilled JUndefined)
    else
      now <- getTime ;;
      let delay := now - start in
      let remaining := sub timeout delay in
      if leb0 remaining then ret (Thrown (JError errorMsg))
      else self (Some (mkOptions (Some remaining) (Some errorMsg)))).

(** [waitFor], unfolded at most [fuel] times. *)
Fixpoint waitFor (fuel : nat) (options : option Options)
    : St World (Outcome JsValue) :=
  match fuel with
  | O => fun _ => None
  | S fuel' => waitFor_body (waitFor fuel') options
  end.

(** *** Quantities of one run, read off the code *)

(** The timeout a call works with (lines 29-33) and the message it rejects
    with (line 34). *)
Definition effTimeout (options : option Options) : JsNumber :=
  match options with
  | Some o => match timeout o with Some t => t | None => Num 1000 end
  | None => Num 1000
  end.

Definition effErrorMsg (options : option Options) : string :=
  match options with
  | Some o => orElse (errorMsg o) "Timeout"
  | None => "Timeout"
  end.

(** [conditionFn]'s promise was fulfilled with a falsy value. *)
Definition falsyResult (o : Outcome JsValue) : bool :=
  match o with
  | Fulfilled v => negb (truthy v)
  | _ => false
  end.

(** [budget t r n]: the [timeout] that the [n]-th retry receives (line 51)
    when the call that started with timeout [t] made its first clock
    reading at index [r] and every attempt before was retried.  Each
    attempt reads the clock twice, at its start (line 26) and after the
    falsy result (line 44), and hands on [timeout - delay]. *)
Fixpoint budget (t : JsNumber) (r n : nat) : JsNumber :=
  match n with
  | O => t
  | S n' => budget (sub t (clock (S r) - clock r)) (S (S r)) n'
  end.

End Environment.

(** The result of a run seen from the first call: from the first retry on
    it went through the [then] of line 37. *)
Definition adoptedAfter (n : nat) (x : option (Outcome JsValue * World))
    : option (Outcome JsValue * World) :=
  match n with
  | O => x
  | S _ => asRejection x
  end.

(** *** Runs used as concrete inputs *)

(** A clock that shows the readings of [l] in turn, then [0]. *)
Definition readings (l : list Z) : nat -> Z := fun i => nth i l 0.

(** A [conditionFn] whose invocations end as listed in [l], then never
    settle. *)
Definition results (l : list (Outcome JsValue)) : nat -> Outcome JsValue :=
  fun i => nth i l Pending.

Definition falsy : Outcome JsValue := Fulfilled (JBool false).

End WaitFor.

(* ------------------------------------------------------------------------ *)
(** ** src/index.js: [Driver.prototype._$] *)

Module Resolver.

(** A call that returns a plain value or raises. *)
Inductive Completion (A : Type) : Type :=
| Normal (a : A)
| Abrupt (reason : JsValue).

Arguments Normal {A} a.
Arguments Abrupt {A} reason.

(** The values of a path and of its elements: a string of dot-separated
    keys, an integer, [undefined] (also what indexing past the end of an
    array yields), or an array of such values. *)
#[local] Unset Elimination Schemes.
Inductive PathValue : Type :=
| PUndefined
| PString (s : string)
| PNumber (n : Z)
| PArray (items : list PathValue).
#[local] Set Elimination Schemes.

(** An integer in decimal, as string concatenation prints it. *)
Definition decimal (n : Z) : string := NilZero.string_of_int (Z.to_int n).

(** ToString; inside an array, [join] prints [undefined] as nothing. *)
Fixpoint toString (v : PathValue) : string :=
  match v with
  | PUndefined => "undefined"
  | PString s => s
  | PNumber n => decimal n
  | PArray items =>
      (fix join (l : list PathValue) : string :=
         match l with
         | [] => ""
         | x :: tl =>
             let here := match x with PUndefined => "" | _ => toString x end in
             match tl with
             | [] => here
             | _ :: _ => here ++ "," ++ join tl
             end
         end) items
  end.

(** [Array.isArray]. *)
Definition isArray (v : PathValue) : bool :=
  match v with
  | PArray _ => true
  | _ => false
  end.

(** ToBoolean. *)
Definition truthyPath (v : PathValue) : bool :=
  match v with
  | PUndefined => false
  | PString s => negb (s =? "")%string
  | PNumber n => negb (n =? 0)
  | PArray _ => true
  end.

Definition quote : string := String "034"%char "".

Section Driver.

(** Element handles, the state of the page and of the automation client, and
    the [selectors] table of the driver. *)
Variables (Element W Table : Type).

(** Where a lookup is scoped: [this._cmd] or an element. *)
Inductive Context : Type :=
| Command
| Within (el : Element).

(** What [_$] resolves to: an array of elements or, by line 88, an element
    on its own. *)
Inductive Resolved : Type :=
| ElementArray (els : list Element)
| BareElement (el : Element).

(** [this._selectors]; [require('./build-selector')], which is not part of
    the sources at hand and is taken as it comes; and the lookup of the
    automation client. *)
Variable selectors : Table.
Variable buildSelector : Table -> PathValue -> PathValue -> Completion string.
Variable findAllByCssSelector : Context -> string -> St W (Outcome (list Element)).

(** [els[index]] for an integer [index].  An element handle has no
    integer-keyed property, and the elements of an array are objects. *)
Definition item (els : Resolved) (index : Z) : option Element :=
  match els with
  | ElementArray l => if index <? 0 then None else nth_error l (Z.to_nat index)
  | BareElement _ => None
  end.

(** [els.length]; an element handle has no [length] ([None] is
    [undefined]). *)
Definition lengthProp (els : Resolved) : option Z :=
  match els with
  | ElementArray l => Some (Z.of_nat (length l))
  | BareElement _ => None
  end.

(** [els.length] as string concatenation prints it. *)
Definition lengthText (els : Resolved) : string :=
  match lengthProp els with
  | Some n => decimal n
  | None => "undefined"
  end.

(** Lines 74-78. *)
Definition extendContext (pathContext firstPart : PathValue) : PathValue :=
  if truthyPath pathContext
  then PString (toString pathContext ++ "." ++ toString firstPart)
  else firstPart.

(** The integers whose successor a number holds exactly: below [2 ^ 53] in
    absolute value. *)
Definition exactInteger (n : Z) : bool := (- 2 ^ 53 <? n) && (n <? 2 ^ 53).

(** Lines 81-84.  [index + 1] is an addition of numbers, and the sum is
    printed as a number is: for an index below [2 ^ 53] in absolute value that
    is the exact sum in decimal.  Beyond, the sum is rounded and the message
    is outside the modelled fragment ([None]). *)
Definition expectedAtLeast (index : Z) (pathContext : PathValue)
    (els : Resolved) : option JsValue :=
  if exactInteger index
  then Some (JError ("Expected at least " ++ decimal (index + 1) ++
                     " elements at region " ++ quote ++
                     toString pathContext ++ quote ++
                     ", but only found " ++ lengthText els ++ "."))
  else None.

(** Lines 55-59: a path that is not an array. *)
Definition lookup (path : PathValue) (context : option Element)
    (pathContext : PathValue) : St W (Outcome Resolved) :=
  let context := match context with Some el => Within el | None => Command end in
  match buildSelector selectors pathContext path with
  | Abrupt e => ret (Thrown e)
  | Normal selector =>
      fun w =>
        match findAllByCssSelector context selector w with
        | Some (Fulfilled els, w') => Some (Fulfilled (ElementArray els), w')
        | Some (Rejected e, w') => Some (Rejected e, w')
        | Some (Pending, w') => Some (Pending, w')
        | Some (Thrown e, w') => Some (Thrown e, w')
        | None => None
        end
  end.

(** Lines 65-92, the callback of [then]; [descend] is [this._$(rest, ...)] of
    line 91.  An [index] that is neither [undefined] nor an integer is
    outside the modelled fragment, and so is the message for an index of
    [2 ^ 53] or more in absolute value. *)
Definition selected
    (descend : option Element -> PathValue -> St W (Outcome Resolved))
    (firstPart index : PathValue) (rest : list PathValue)
    (pathContext : PathValue) (els : Resolved) : St W (Outcome Resolved) :=
  match index with
  | PUndefined => ret (Fulfilled els)
  | PNumber index =>
      let el := item els index in
      let pathContext := extendContext pathContext firstPart in
      match el with
      | None =>
          match expectedAtLeast index pathContext els with
          | Some error => ret (Thrown error)
          | None => fun _ => None
          end
      | Some el =>
          match rest with
          | [] => ret (Fulfilled (BareElement el))
          | _ :: _ => descend (Some el) pathContext
          end
      end
  | PString _ | PArray _ => fun _ => None
  end.

(** [Driver.prototype._$].  The recursion follows the path: into
    [firstPart = path[0]], and from an array to [rest = path.slice(2)].  In an
    array of fewer than two elements [path[1]] is [undefined], so that the
    callback stops at line 69 and [rest], which is empty, is not used;
    [resolve_array] below gives the one equation of lines 60-92 for every
    array. *)
Fixpoint resolve (path : PathValue) (context : option Element)
    (pathContext : PathValue) {struct path} : St W (Outcome Resolved) :=
  match path with
  | PArray items =>
      (fix array (items : list PathValue) (context : option Element)
           (pathContext : PathValue) {struct items} : St W (Outcome Resolved) :=
         match items with
         | [] =>
             then_ (lookup PUndefined context pathContext)
                   (fun els => ret (Fulfilled els))
         | [firstPart] =>
             then_ (resolve firstPart context pathContext)
                   (fun els => ret (Fulfilled els))
         | firstPart :: index :: rest =>
             then_ (resolve firstPart context pathContext)
                   (selected (array rest) firstPart index rest pathContext)
         end) items context pathContext
  | _ => lookup path context pathContext
  end.

(** [Driver.prototype.count], lines 163-167. *)
Definition count (region : PathValue) : St W (Outcome JsValue) :=
  then_ (resolve region None PUndefined)
        (fun els =>
           ret (Fulfilled match lengthProp els with
                          | Some n => JNumber (Num n)
                          | None => JUndefined
                          end)).

End Driver.

Arguments Command {Element}.
Arguments Within {Element} el.
Arguments ElementArray {Element} els.
Arguments BareElement {Element} el.

(** *** A page used as concrete input

    Elements are numbered.  The table maps every key to itself; the root
    holds five elements [a], the third of which holds two elements [b]. *)
Definition page (context : @Context nat) (selector : string) : list nat :=
  match context with
  | Command => if (selector =? "a")%string then [1; 2; 3; 4; 5]%nat else []
  | Within el =>
      if ((el =? 3)%nat && (selector =? "b")%string)%bool then [31; 32]%nat else []
  end.

Definition pageLookup (context : @Context nat) (selector : string)
    : St unit (Outcome (list nat)) :=
  ret (Fulfilled (page context selector)).

Definition sameName (_ : unit) (_ path : PathValue) : Completion string :=
  Normal (toString path).

Definition resolveOnPage : PathValue -> option nat -> PathValue ->
    St unit (Outcome (@Resolved nat)) :=
  resolve nat unit unit tt sameName pageLookup.

End Resolver.

(* ------------------------------------------------------------------------ *)
(** ** [waitFor] over any world, and the methods of the driver built on it *)

Module DriverOps.
Import WaitFor Resolver.

Section Over.

(** [waitFor] again, word for word, for a caller whose [conditionFn] is a
    closure over its own state [W]: [getTime] is [new Date().getTime()]. *)
Variable W : Type.
Variable getTime : St W Z.
Variable conditionFn : St W (Outcome JsValue).

Definition waitForIn_body
    (self : option Options -> St W (Outcome JsValue))
    (options : option Options) : St W (Outcome JsValue) :=
  start <- getTime ;;
  let options := match options with Some o => o | None => mkOptions None None end in
  let timeout := match timeout options with Some t => t | None => Num 1000 end in
  let errorMsg := orElse (errorMsg options) "Timeout" in
  then_ conditionFn (fun result =>
    if truthy result then ret (Fulfilled JUndefined)
    else
      now <- getTime ;;
      let delay := now - start in
      let remaining := sub timeout delay in
      if leb0 remaining then ret (Thrown (JError errorMsg))
      else self (Some (mkOptions (Some remaining) (Some errorMsg)))).

Fixpoint waitForIn (fuel : nat) (options : option Options)
    : St W (Outcome JsValue) :=
  match fuel with
  | O => fun _ => None
  | S fuel' => waitForIn_body (waitForIn fuel') options
  end.

End Over.

(** [Array.prototype.indexOf] on an array of strings, [-1] when absent. *)
Fixpoint indexOf (text : list string) (value : string) : Z :=
  match text with
  | [] => -1
  | t :: rest =>
      if (t =? value)%string then 0
      else
        let i := indexOf rest value in
        if i =? -1 then -1 else i + 1
  end.

(** A promise together with a value kept beside it. *)
Definition keeping {W A B} (a : A) (p : St W (Outcome B)) : St W (Outcome (A * B)) :=
  fun w =>
    match p w with
    | Some (Fulfilled b, w') => Some (Fulfilled (a, b), w')
    | Some (Rejected e, w') => Some (Rejected e, w')
    | Some (Pending, w') => Some (Pending, w')
    | Some (Thrown e, w') => Some (Thrown e, w')
    | None => None
    end.

Section Driver.

Variables (Element W Table : Type).
Variable selectors : Table.
Variable buildSelector : Table -> PathValue -> PathValue -> Completion string.
Variable findAllByCssSelector :
  @Context Element -> string -> St W (Outcome (list Element)).

(** The clock, as the state of the session shows it. *)
Variable getTime : St W Z.

(** [element.findAllByTagName]; [require('./read-all')], which is not part of
    the sources at hand: it is taken to fulfil with the array of the texts of
    the elements it is given; and [this._cmd.execute] applied to the script
    of lines 109-122 and to the one argument it receives ([None] is
    [undefined]). *)
Variable findAllByTagName : Element -> string -> St W (Outcome (list Element)).
Variable readAll : list Element -> St W (Outcome (list string)).
Variable execute : option Element -> St W (Outcome JsValue).

(** Lines 184-189: the function that [waitForRegion] hands to [waitFor].
    [undefined > 0] is false. *)
Definition regionFound (region : PathValue) : St W (Outcome JsValue) :=
  then_ (resolve Element W Table selectors buildSelector findAllByCssSelector
           region None PUndefined)
        (fun els =>
           ret (Fulfilled (JBool match lengthProp Element els with
                                 | Some n => 0 <? n
                                 | None => false
                                 end))).

(** Lines 179-182.  A [timeout] that is [undefined] ([None]) is a key of the
    object all the same; as a number it is [NaN]. *)
Definition regionOptions (region : PathValue) (timeout : option Z) : Options :=
  mkOptions
    (Some match timeout with Some t => Num t | None => NaN end)
    (Some ("Unable to find element at region " ++ quote ++ toString region ++ quote)).

(** [Driver.prototype.waitForRegion]. *)
Definition waitForRegion (fuel : nat) (region : PathValue) (timeout : option Z)
    : St W (Outcome JsValue) :=
  waitForIn W getTime (regionFound region) fuel
    (Some (regionOptions region timeout)).

(** [Driver.prototype.selectOption].  [optionEls], the variable the two
    callbacks share, is handed from the first to the second beside the
    text. *)
Definition selectOption (element : Element) (value : string)
    : St W (Outcome JsValue) :=
  then_
    (then_ (findAllByTagName element "option")
           (fun options => keeping options (readAll options)))
    (fun '(optionEls, text) =>
       let index := indexOf text value in
       if index =? -1
       then ret (Thrown (JError ("Could not find option value " ++ quote ++
                                 value ++ quote ++ ".")))
       else execute (nth_error optionEls (Z.to_nat index))).

End Driver.

End DriverOps.

(* ------------------------------------------------------------------------ *)
(** ** Further concrete inputs *)

Module Inputs.
Import WaitFor Resolver.

(** The clock that shows [i] at its [i]-th reading. *)
Definition ticking : nat -> Z := Z.of_nat.

(** A clock that shows [i] at its first three readings and then, after a
    stall of ten milliseconds, [i + 10]. *)
Definition stalling : nat -> Z :=
  fun i => if (i <? 3)%nat then Z.of_nat i else Z.of_nat i + 10.

(** A lookup that is rejected because the session is gone. *)
Definition lostSession (_ : @Context nat) (_ : string)
    : St unit (Outcome (list nat)) :=
  ret (Rejected (JError "no such session")).

(** A session whose state is the number of clock readings so far, and whose
    clock shows that number. *)
Definition sessionTime : St nat Z := fun w => Some (Z.of_nat w, S w).

(** The page of [Resolver.page], seen from such a session. *)
Definition sessionLookup (context : @Context nat) (selector : string)
    : St nat (Outcome (list nat)) :=
  ret (Fulfilled (page context selector)).

(** A [select] element with three options, two of them with the same
    text. *)
Definition colourOptions (_ : nat) (_ : string) : St unit (Outcome (list nat)) :=
  ret (Fulfilled [10; 11; 12]%nat).

Definition colourTexts (_ : list nat) : St unit (Outcome (list string)) :=
  ret (Fulfilled ["red"; "green"; "green"]).

(** A [select] element that has gone from the page. *)
Definition staleOptions (_ : nat) (_ : string) : St unit (Outcome (list nat)) :=
  ret (Rejected (JError "stale element reference")).

(** A browser that answers with the number of the element it was given. *)
Definition echo (arg : option nat) : St unit (Outcome JsValue) :=
  ret (Fulfilled match arg with
                 | Some el => JNumber (Num (Z.of_nat el))
                 | None => JUndefined
                 end).

End Inputs.

(* ------------------------------------------------------------------------ *)
(** ** Properties of [waitFor] *)

Module WaitForFacts.
Import WaitFor.

Section Run.

Variable clock : nat -> Z.
Variable poll : nat -> Outcome JsValue.

Local Abbreviation waitFor := (waitFor clock poll).
Local Abbreviation budget := (budget clock).

Lemma orElse_idem (a : option string) (d : string) :
  orElse (Some (orElse a d)) d = orElse a d.
Proof.
  destruct a as [s|]; simpl.
  - destruct (s =? "")%string eqn:E; simpl.
    + destruct (d =? "")%string; reflexivity.
    + now rewrite E.
  - destruct (d =? "")%string; reflexivity.
Qed.

(** One unfolding of [waitFor], by the way the invocation of
    [conditionFn] ends. *)
Lemma waitFor_unfold fuel options r c :
  waitFor (S fuel) options (mkWorld r c) =
  match poll c with
  | Fulfilled result =>
      if truthy result then Some (Fulfilled JUndefined, mkWorld (S r) (S c))
      else
        let remaining := sub (effTimeout options) (clock (S r) - clock r) in
        if leb0 remaining
        then Some (Rejected (JError (effErrorMsg options)),
                   mkWorld (S (S r)) (S c))
        else
          asRejection
            (waitFor fuel
               (Some (mkOptions (Some remaining) (Some (effErrorMsg options))))
               (mkWorld (S (S r)) (S c)))
  | Rejected e => Some (Rejected e, mkWorld (S r) (S c))
  | Pending => Some (Pending, mkWorld (S r) (S c))
  | Thrown e => Some (Thrown e, mkWorld (S r) (S c))
  end.
Proof.
  destruct options as [[t m]|]; cbn -[leb0 sub];
    unfold waitFor_body, bind, then_, getTime, conditionFn, ret;
    cbn -[leb0 sub];
    destruct (poll c) as [v| | |]; try reflexivity;
    destruct (truthy v); try reflexivity; cbn -[leb0 sub];
    match goal with |- context [leb0 ?x] => destruct (leb0 x) end;
    reflexivity.
Qed.

Lemma effErrorMsg_idem options t :
  effErrorMsg (Some (mkOptions t (Some (effErrorMsg options)))) =
  effErrorMsg options.
Proof.
  destruct options as [[t' m]|]; simpl.
  - apply orElse_idem.
  - reflexivity.
Qed.

(** The defaults of lines 29-34 are all a call sees of its options. *)
Lemma waitFor_normalized fuel options w :
  waitFor fuel options w =
  waitFor fuel
    (Some (mkOptions (Some (effTimeout options)) (Some (effErrorMsg options)))) w.
Proof.
  destruct fuel as [|fuel]; [reflexivity|].
  destruct w as [r c]. rewrite !waitFor_unfold.
  rewrite effErrorMsg_idem. reflexivity.
Qed.

Lemma asRejection_idem (x : option (Outcome JsValue * World)) :
  asRejection (asRejection x) = asRejection x.
Proof. destruct x as [[[] ?]|]; reflexivity. Qed.

Lemma adoptedAfter_settled n o w :
  (forall e, o <> Thrown e) ->
  adoptedAfter n (Some (o, w)) = Some (o, w).
Proof.
  intros H. destruct n; [reflexivity|].
  destruct o; try reflexivity. now destruct (H reason).
Qed.

(** [budget] with the last attempt split off. *)
Lemma budget_succ t r n :
  budget t r (S n) =
  sub (budget t r n) (clock (r + 2 * n + 1) - clock (r + 2 * n)).
Proof.
  revert t r. induction n as [|n IH]; intros t r.
  - cbn [WaitFor.budget].
    replace (r + 2 * 0 + 1)%nat with (S r) by lia.
    replace (r + 2 * 0)%nat with r by lia.
    reflexivity.
  - change (budget t r (S (S n)))
      with (budget (sub t (clock (S r) - clock r)) (S (S r)) (S n)).
    rewrite IH.
    change (budget t r (S n))
      with (budget (sub t (clock (S r) - clock r)) (S (S r)) n).
    replace (S (S r) + 2 * n + 1)%nat with (r + 2 * S n + 1)%nat by lia.
    replace (S (S r) + 2 * n)%nat with (r + 2 * S n)%nat by lia.
    reflexivity.
Qed.

(** The run as far as its [n]-th retry: while [conditionFn] resolves falsy
    and the remaining time is positive, the call is the recursive call
    with the budget handed on. *)
Lemma waitFor_retries n : forall fuel options r c,
  (forall i, (i < n)%nat -> falsyResult (poll (c + i)) = true) ->
  (forall i, (i < n)%nat ->
     leb0 (budget (effTimeout options) r (S i)) = false) ->
  waitFor (n + fuel) options (mkWorld r c) =
  adoptedAfter n
    (waitFor fuel
       (Some (mkOptions (Some (budget (effTimeout options) r n))
                        (Some (effErrorMsg options))))
       (mkWorld (r + 2 * n) (c + n))).
Proof.
  induction n as [|n IH]; intros fuel options r c Hfalsy Hleft.
  - cbn [Nat.add adoptedAfter WaitFor.budget]. rewrite waitFor_normalized.
    replace (r + 2 * 0)%nat with r by lia.
    replace (c + 0)%nat with c by lia.
    reflexivity.
  - change (S n + fuel)%nat with (S (n + fuel)).
    rewrite waitFor_unfold.
    pose proof (Hfalsy 0%nat ltac:(lia)) as H0.
    replace (c + 0)%nat with c in H0 by lia.
    destruct (poll c) as [v| | |]; try discriminate.
    simpl in H0. destruct (truthy v); [discriminate|].
    pose proof (Hleft 0%nat ltac:(lia)) as H1. simpl in H1.
    cbv zeta. rewrite H1.
    rewrite IH.
    + rewrite effErrorMsg_idem. simpl effTimeout.
      replace (S (S r) + 2 * n)%nat with (r + 2 * S n)%nat by lia.
      replace (S c + n)%nat with (c + S n)%nat by lia.
      destruct n; simpl adoptedAfter; [reflexivity|apply asRejection_idem].
    + intros i Hi. specialize (Hfalsy (S i) ltac:(lia)).
      now replace (S c + i)%nat with (c + S i)%nat by lia.
    + intros i Hi. exact (Hleft (S i) ltac:(lia)).
Qed.

(** The three ways the run ends at attempt [n] (counted from 0), after
    [n] retried attempts. *)
Section Ending.

Variables (n fuel : nat) (options : option Options) (r c : nat).
Hypothesis Hfalsy :
  forall i, (i < n)%nat -> falsyResult (poll (c + i)) = true.
Hypothesis Hleft :
  forall i, (i < n)%nat ->
    leb0 (budget (effTimeout options) r (S i)) = false.
Hypothesis Hfuel : (n < fuel)%nat.

Lemma waitFor_ends_rejected reason :
  poll (c + n) = Rejected reason ->
  waitFor fuel options (mkWorld r c) =
  Some (Rejected reason, mkWorld (r + 2 * n + 1) (c + n + 1)).
Proof.
  intros Hp.
  replace fuel with (n + S (fuel - n - 1))%nat by lia.
  rewrite waitFor_retries by assumption.
  rewrite waitFor_unfold, Hp.
  rewrite adoptedAfter_settled by discriminate.
  do 2 f_equal. f_equal; lia.
Qed.

Lemma waitFor_ends_truthy v :
  poll (c + n) = Fulfilled v -> truthy v = true ->
  waitFor fuel options (mkWorld r c) =
  Some (Fulfilled JUndefined, mkWorld (r + 2 * n + 1) (c + n + 1)).
Proof.
  intros Hp Hv.
  replace fuel with (n + S (fuel - n - 1))%nat by lia.
  rewrite waitFor_retries by assumption.
  rewrite waitFor_unfold, Hp, Hv.
  rewrite adoptedAfter_settled by discriminate.
  do 2 f_equal. f_equal; lia.
Qed.

Lemma waitFor_ends_timeout :
  falsyResult (poll (c + n)) = true ->
  leb0 (budget (effTimeout options) r (S n)) = true ->
  waitFor fuel options (mkWorld r c) =
  Some (Rejected (JError (effErrorMsg options)),
        mkWorld (r + 2 * n + 2) (c + n + 1)).
Proof.
  intros Hp Hout.
  replace fuel with (n + S (fuel - n - 1))%nat by lia.
  rewrite waitFor_retries by assumption.
  rewrite waitFor_unfold.
  destruct (poll (c + n)) as [v| | |]; try discriminate.
  simpl in Hp. destruct (truthy v); [discriminate|].
  cbv zeta. simpl effTimeout. rewrite effErrorMsg_idem.
  rewrite budget_succ in Hout.
  replace (S (r + 2 * n)) with (r + 2 * n + 1)%nat by lia.
  rewrite Hout.
  rewrite adoptedAfter_settled by discriminate.
  do 2 f_equal. f_equal; lia.
Qed.

End Ending.

(** When the clock shows the same value at the start of a retry (line 26)
    as it showed after the falsy result before (line 44), the budget
    handed on is the original timeout less the time since the first
    start. *)
Lemma budget_clock_holds T r n :
  (forall i, (i < n)%nat ->
     clock (r + 2 * i + 2) = clock (r + 2 * i + 1)) ->
  budget (Num T) r (S n) = Num (T - (clock (r + 2 * n + 1) - clock r)).
Proof.
  induction n as [|n IH]; intros Hold.
  - cbn [WaitFor.budget sub].
    replace (r + 2 * 0 + 1)%nat with (S r) by lia. reflexivity.
  - rewrite budget_succ, IH by (intros i Hi; apply Hold; lia).
    cbn [sub]. f_equal.
    rewrite <- (Hold n) by lia.
    replace (r + 2 * n + 2)%nat with (r + 2 * S n)%nat by lia. lia.
Qed.

(** With a clock that does not run backwards the budget handed on is never
    less than what is left of the original timeout since the first start, so
    that an attempt whose falsy result comes before the first start plus the
    original timeout is retried. *)
Lemma budget_covers_deadline T r n :
  (forall i, clock i <= clock (S i)) ->
  exists b, budget (Num T) r (S n) = Num b
            /\ T - (clock (r + 2 * n + 1) - clock r) <= b.
Proof.
  intros Hmono. induction n as [|n (b & Hb & Hle)].
  - exists (T - (clock (S r) - clock r)). split; [reflexivity|].
    replace (r + 2 * 0 + 1)%nat with (S r) by lia. lia.
  - rewrite budget_succ, Hb. cbn [sub]. eexists. split; [reflexivity|].
    pose proof (Hmono (r + 2 * n + 1)%nat) as Hstep.
    replace (S (r + 2 * n + 1)) with (r + 2 * S n)%nat in Hstep by lia.
    lia.
Qed.

Lemma before_deadline_retries T r i :
  (forall j, clock j <= clock (S j)) ->
  clock (r + 2 * i + 1) < clock r + T ->
  leb0 (budget (Num T) r (S i)) = false.
Proof.
  intros Hmono Hbefore.
  destruct (budget_covers_deadline T r i Hmono) as (b & -> & Hle).
  cbn [leb0]. apply Z.leb_gt. lia.
Qed.

(** Every run that ends has invoked [conditionFn]. *)
Lemma waitFor_invokes fuel : forall options r c res w',
  waitFor fuel options (mkWorld r c) = Some (res, w') ->
  (c < calls w')%nat.
Proof.
  induction fuel as [|fuel IH]; intros options r c res w' H.
  - discriminate.
  - rewrite waitFor_unfold in H.
    destruct (poll c) as [v| | |];
      try (injection H as _ <-; simpl; lia).
    destruct (truthy v); [injection H as _ <-; simpl; lia|].
    cbv zeta in H.
    destruct (leb0 _); [injection H as _ <-; simpl; lia|].
    destruct (waitFor fuel _ _) as [[o w]|] eqn:E; [|discriminate].
    apply IH in E.
    assert (w = w') as <- by (destruct o; simpl in H; congruence).
    lia.
Qed.

End Run.

(** A goal about every index below a literal bound, case by case. *)
Ltac below_cases i :=
  first
    [ exfalso; lia
    | destruct i as [|i];
      [ first [reflexivity | vm_compute; lia] | below_cases i ] ].

(** *** The specified properties of [waitFor] *)

(** C2: when the k-th invocation of [conditionFn] rejects, all earlier ones
    having resolved falsy with time left ([k = n + 1], [n] retried
    attempts), [waitFor] rejects with the same reason, unwrapped, and
    [conditionFn] has been invoked exactly [k] times: the rejection is not
    retried. *)
Theorem waitFor_rejection_propagates :
  forall clock poll options r c n reason fuel,
    (forall i, (i < n)%nat -> falsyResult (poll (c + i)%nat) = true) ->
    (forall i, (i < n)%nat ->
       leb0 (budget clock (effTimeout options) r (S i)) = false) ->
    poll (c + n)%nat = Rejected reason ->
    (n < fuel)%nat ->
    waitFor clock poll fuel options (mkWorld r c) =
    Some (Rejected reason, mkWorld (r + 2 * n + 1) (c + n + 1)).
Proof.
  intros. now apply waitFor_ends_rejected.
Qed.

Lemma waitFor_rejection_propagates_witness :
  waitFor (readings [0; 3; 3; 7; 8])
          (results [falsy; falsy; Rejected (JObject 42)])
          3 (Some (mkOptions (Some (Num 30)) None)) (mkWorld 0 0) =
  Some (Rejected (JObject 42), mkWorld 5 3).
Proof.
  apply (waitFor_rejection_propagates
           (readings [0; 3; 3; 7; 8])
           (results [falsy; falsy; Rejected (JObject 42)])
           (Some (mkOptions (Some (Num 30)) None)) 0 0 2 (JObject 42) 3).
  - intros i Hi. below_cases i.
  - intros i Hi. below_cases i.
  - reflexivity.
  - lia.
Defined.

(** C8: when the k-th invocation of [conditionFn] resolves truthy, all
    earlier ones having resolved falsy with time left ([k = n + 1]),
    [waitFor] is fulfilled with [undefined] and [conditionFn] has been
    invoked exactly [k] times. *)
Theorem waitFor_truthy_succeeds :
  forall clock poll options r c n v fuel,
    (forall i, (i < n)%nat -> falsyResult (poll (c + i)%nat) = true) ->
    (forall i, (i < n)%nat ->
       leb0 (budget clock (effTimeout options) r (S i)) = false) ->
    poll (c + n)%nat = Fulfilled v ->
    truthy v = true ->
    (n < fuel)%nat ->
    waitFor clock poll fuel options (mkWorld r c) =
    Some (Fulfilled JUndefined, mkWorld (r + 2 * n + 1) (c + n + 1)).
Proof.
  intros. now apply waitFor_ends_truthy with (v := v).
Qed.

Lemma waitFor_truthy_succeeds_witness :
  waitFor (readings [0; 1; 1; 2; 2])
          (results [falsy; Fulfilled (JNumber (Num 0)); Fulfilled (JBool true)])
          3 None (mkWorld 0 0) =
  Some (Fulfilled JUndefined, mkWorld 5 3).
Proof.
  apply (waitFor_truthy_succeeds
           (readings [0; 1; 1; 2; 2])
           (results [falsy; Fulfilled (JNumber (Num 0)); Fulfilled (JBool true)])
           None 0 0 2 (JBool true) 3).
  - intros i Hi. below_cases i.
  - intros i Hi. below_cases i.
  - reflexivity.
  - reflexivity.
  - lia.
Defined.

(** C9: whatever [options.timeout] is (zero, negative, not a number,
    absent), [waitFor] invokes [conditionFn] before it looks at the budget:
    a run that ends has invoked it, the options play no part unless the
    first result is a falsy fulfilment, and a truthy first result fulfils
    the call after the single clock reading of line 26. *)
Theorem waitFor_first_attempt_unconditional :
  forall clock poll options r c fuel,
    (0 < fuel)%nat ->
    (forall res w',
       waitFor clock poll fuel options (mkWorld r c) = Some (res, w') ->
       (c < calls w')%nat)
    /\ (forall options',
          falsyResult (poll c) = false ->
          waitFor clock poll fuel options (mkWorld r c) =
          waitFor clock poll fuel options' (mkWorld r c))
    /\ (forall v,
          poll c = Fulfilled v -> truthy v = true ->
          waitFor clock poll fuel options (mkWorld r c) =
          Some (Fulfilled JUndefined, mkWorld (S r) (S c))).
Proof.
  intros clock poll options r c fuel Hfuel.
  destruct fuel as [|fuel]; [lia|]. repeat split.
  - intros res w'. apply waitFor_invokes.
  - intros options' Hp. rewrite !waitFor_unfold.
    destruct (poll c) as [v| | |]; try reflexivity.
    simpl in Hp. destruct (truthy v); [reflexivity|discriminate].
  - intros v Hp Hv. now rewrite waitFor_unfold, Hp, Hv.
Qed.

Lemma waitFor_first_attempt_unconditional_witness :
  waitFor (readings [100]) (results [Fulfilled (JString "ok")]) 1
          (Some (mkOptions (Some (Num (-5))) None)) (mkWorld 0 0) =
  Some (Fulfilled JUndefined, mkWorld 1 1).
Proof.
  destruct (waitFor_first_attempt_unconditional
              (readings [100]) (results [Fulfilled (JString "ok")])
              (Some (mkOptions (Some (Num (-5))) None)) 0 0 1)
    as (_ & _ & Htruthy); [lia|].
  apply (Htruthy (JString "ok")); reflexivity.
Defined.

(** C4: with [options.timeout = 0] and a clock that does not run backwards,
    [waitFor] makes one attempt: the run ends after exactly one invocation
    of [conditionFn], and when that invocation resolves falsy the call
    rejects at once with the configured [errorMsg] (["Timeout"] when none,
    or the empty string, is configured). *)
Theorem waitFor_zero_timeout_single_attempt :
  forall clock poll msg r c fuel,
    (0 < fuel)%nat ->
    clock r <= clock (S r) ->
    (exists res w',
       waitFor clock poll fuel (Some (mkOptions (Some (Num 0)) msg))
         (mkWorld r c) = Some (res, w')
       /\ calls w' = S c)
    /\ (falsyResult (poll c) = true ->
        waitFor clock poll fuel (Some (mkOptions (Some (Num 0)) msg))
          (mkWorld r c) =
        Some (Rejected (JError (orElse msg "Timeout")),
              mkWorld (S (S r)) (S c))).
Proof.
  intros clock poll msg r c fuel Hfuel Hclock.
  destruct fuel as [|fuel]; [lia|].
  rewrite waitFor_unfold. cbn [effTimeout effErrorMsg timeout errorMsg sub].
  assert ((0 - (clock (S r) - clock r) <=? 0) = true) as Hout
    by (apply Z.leb_le; lia).
  cbn [leb0]. rewrite Hout. split.
  - destruct (poll c) as [v| | |]; [destruct (truthy v)| | |];
      eexists; eexists; (split; [reflexivity|reflexivity]).
  - intros Hp. destruct (poll c) as [v| | |]; try discriminate.
    simpl in Hp. destruct (truthy v); [discriminate|reflexivity].
Qed.

Lemma waitFor_zero_timeout_single_attempt_witness :
  waitFor (readings [7; 7]) (results [falsy; Fulfilled (JBool true)]) 4
          (Some (mkOptions (Some (Num 0)) (Some "X"))) (mkWorld 0 0) =
  Some (Rejected (JError "X"), mkWorld 2 1).
Proof.
  destruct (waitFor_zero_timeout_single_attempt
              (readings [7; 7]) (results [falsy; Fulfilled (JBool true)])
              (Some "X") 0 0 4) as (_ & Hfalsy);
    [lia | vm_compute; discriminate |].
  apply Hfalsy. reflexivity.
Defined.

(** C10: when [options.errorMsg] is the empty string and the budget runs
    out on a falsy result (at attempt [n], counted from 0), the rejection
    carries the default message ["Timeout"]; and an [options.timeout] of 0
    is honoured, not replaced by the default 1000: with a clock that does
    not run backwards the budget then runs out at the first attempt. *)
Theorem waitFor_empty_errorMsg_defaults :
  forall clock poll t r c n fuel,
    (forall i, (i < n)%nat -> falsyResult (poll (c + i)%nat) = true) ->
    (forall i, (i < n)%nat ->
       leb0 (budget clock
               (effTimeout (Some (mkOptions t (Some "")))) r (S i)) = false) ->
    falsyResult (poll (c + n)%nat) = true ->
    leb0 (budget clock
            (effTimeout (Some (mkOptions t (Some "")))) r (S n)) = true ->
    clock r <= clock (S r) ->
    (n < fuel)%nat ->
    waitFor clock poll fuel (Some (mkOptions t (Some ""))) (mkWorld r c) =
    Some (Rejected (JError "Timeout"), mkWorld (r + 2 * n + 2) (c + n + 1))
    /\ (t = Some (Num 0) -> n = 0%nat).
Proof.
  intros clock poll t r c n fuel Hfalsy Hleft Hp Hout Hclock Hfuel. split.
  - now rewrite (waitFor_ends_timeout clock poll n fuel _ r c).
  - intros ->. destruct n as [|n]; [reflexivity|].
    specialize (Hleft 0%nat ltac:(lia)). simpl in Hleft.
    apply Z.leb_gt in Hleft. lia.
Qed.

Lemma waitFor_empty_errorMsg_defaults_witness :
  waitFor (readings [7; 7]) (results [falsy]) 1
          (Some (mkOptions (Some (Num 0)) (Some ""))) (mkWorld 0 0) =
  Some (Rejected (JError "Timeout"), mkWorld 2 1).
Proof.
  refine (proj1 (waitFor_empty_errorMsg_defaults
                   (readings [7; 7]) (results [falsy]) (Some (Num 0))
                   0 0 0 1 _ _ _ _ _ _)).
  - intros i Hi. below_cases i.
  - intros i Hi. below_cases i.
  - reflexivity.
  - reflexivity.
  - vm_compute; discriminate.
  - lia.
Defined.

(** C1, as the code has it: in a call whose results are falsy and in which
    the clock shows the same value at the start of each retry as it showed
    after the falsy result before, the deadline is absolute.  The call
    rejects with the timeout error at the first falsy result (attempt [k],
    counted from 0) whose clock reading reaches or exceeds the first start
    plus the original timeout [T], having retried at every earlier one; and
    the budget each retry receives is [T] less the time from the first start
    to the reading after the falsy result before it. *)
Theorem waitFor_deadline_when_clock_holds :
  forall clock poll options T r c k fuel,
    effTimeout options = Num T ->
    (forall i, (i <= k)%nat -> falsyResult (poll (c + i)%nat) = true) ->
    (forall i, (i < k)%nat ->
       clock (r + 2 * i + 2)%nat = clock (r + 2 * i + 1)%nat) ->
    (forall i, (i < k)%nat -> clock (r + 2 * i + 1)%nat < clock r + T) ->
    clock r + T <= clock (r + 2 * k + 1)%nat ->
    (k < fuel)%nat ->
    waitFor clock poll fuel options (mkWorld r c) =
    Some (Rejected (JError (effErrorMsg options)),
          mkWorld (r + 2 * k + 2) (c + k + 1))
    /\ forall j fuel', (j < k)%nat ->
         waitFor clock poll (S j + fuel') options (mkWorld r c) =
         asRejection
           (waitFor clock poll fuel'
              (Some (mkOptions
                       (Some (Num (T - (clock (r + 2 * j + 1)%nat - clock r))))
                       (Some (effErrorMsg options))))
              (mkWorld (r + 2 * S j) (c + S j))).
Proof.
  intros clock poll options T r c k fuel HT Hfalsy Hold Hbefore Hat Hfuel.
  assert (Hleft : forall i, (i < k)%nat ->
            leb0 (budget clock (effTimeout options) r (S i)) = false).
  { intros i Hi. rewrite HT, budget_clock_holds
      by (intros i' Hi'; apply Hold; lia).
    cbn [leb0]. apply Z.leb_gt. specialize (Hbefore i Hi). lia. }
  split.
  - apply (waitFor_ends_timeout clock poll k fuel options r c);
      [ intros i Hi; apply Hfalsy; lia | exact Hleft | exact Hfuel
      | apply Hfalsy; lia | ].
    rewrite HT, budget_clock_holds by assumption.
    cbn [leb0]. apply Z.leb_le. lia.
  - intros j fuel' Hj.
    rewrite (waitFor_retries clock poll (S j))
      by (intros i Hi; first [apply Hfalsy; lia | apply Hleft; lia]).
    rewrite HT, budget_clock_holds by (intros i Hi; apply Hold; lia).
    reflexivity.
Qed.

Lemma waitFor_deadline_when_clock_holds_witness :
  waitFor (readings [0; 4; 4; 10]) (results [falsy; falsy; falsy]) 2
          (Some (mkOptions (Some (Num 10)) None)) (mkWorld 0 0) =
  Some (Rejected (JError "Timeout"), mkWorld 4 2).
Proof.
  refine (proj1 (waitFor_deadline_when_clock_holds
                   (readings [0; 4; 4; 10]) (results [falsy; falsy; falsy])
                   (Some (mkOptions (Some (Num 10)) None)) 10 0 0 1 2
                   _ _ _ _ _ _)).
  - reflexivity.
  - intros i Hi. below_cases i.
  - intros i Hi. below_cases i.
  - intros i Hi. below_cases i.
  - vm_compute; discriminate.
  - lia.
Defined.

(** C1 as stated fails on the code in two ways.  The test of line 47 is
    [remaining <= 0]: with [timeout: 0] and a clock that still shows the
    start value 5, the reading does not exceed the deadline 5 + 0 and the
    call rejects all the same.  And every call reads its own [start] (line
    26): with [timeout: 10] and the readings 0, 9 (first attempt), 11, 11
    (second attempt), 11, 12 (third attempt), the reading 11 after the second
    falsy result exceeds the deadline 0 + 10, yet the call retries with a
    budget of 1, where 10 less the time since the first start is -1, and
    rejects only after a third invocation. *)
Lemma waitFor_deadline_not_absolute :
  (readings [5; 5] 1%nat <= readings [5; 5] 0%nat + 0
   /\ waitFor (readings [5; 5]) (results [falsy]) 1
        (Some (mkOptions (Some (Num 0)) None)) (mkWorld 0 0) =
      Some (Rejected (JError "Timeout"), mkWorld 2 1))
  /\ (readings [0; 9; 11; 11; 11; 12] 3%nat >
      readings [0; 9; 11; 11; 11; 12] 0%nat + 10
      /\ budget (readings [0; 9; 11; 11; 11; 12]) (Num 10) 0 2 = Num 1
      /\ 10 - (readings [0; 9; 11; 11; 11; 12] 3%nat -
               readings [0; 9; 11; 11; 11; 12] 0%nat) = -1
      /\ waitFor (readings [0; 9; 11; 11; 11; 12])
           (results [falsy; falsy; falsy]) 3
           (Some (mkOptions (Some (Num 10)) None)) (mkWorld 0 0) =
         Some (Rejected (JError "Timeout"), mkWorld 6 3)).
Proof.
  repeat split; try reflexivity; vm_compute; discriminate.
Qed.

End WaitForFacts.

(* ------------------------------------------------------------------------ *)
(** ** Properties of [_$] *)

Module ResolverFacts.
Import Resolver.

Section Driver.

Variables (Element W Table : Type).
Variable selectors : Table.
Variable buildSelector : Table -> PathValue -> PathValue -> Completion string.
Variable findAllByCssSelector :
  @Context Element -> string -> St W (Outcome (list Element)).

Local Abbreviation resolve :=
  (resolve Element W Table selectors buildSelector findAllByCssSelector).
Local Abbreviation selected := (selected Element W).

(** Lines 60-92 as they are written. *)
Lemma resolve_array items context pathContext :
  resolve (PArray items) context pathContext =
  let firstPart := nth 0 items PUndefined in
  let index := nth 1 items PUndefined in
  let rest := skipn 2 items in
  then_ (resolve firstPart context pathContext)
        (selected (resolve (PArray rest)) firstPart index rest pathContext).
Proof.
  destruct items as [|firstPart [|index rest]]; reflexivity.
Qed.

(** A [then] whose callback hands its argument on changes nothing. *)
Lemma then_ret {A} (p : St W (Outcome A)) w :
  then_ p (fun a => ret (Fulfilled a)) w = p w.
Proof.
  unfold then_. destruct (p w) as [[[a| | |] w']|]; reflexivity.
Qed.

(** The callback of an array path with an integer index, once [firstPart]
    has resolved. *)
Lemma resolve_indexed firstPart index rest context pathContext w els w' :
  resolve firstPart context pathContext w = Some (Fulfilled els, w') ->
  resolve (PArray (firstPart :: PNumber index :: rest)) context pathContext w =
  asRejection
    (selected (resolve (PArray rest)) firstPart (PNumber index) rest
       pathContext els w').
Proof.
  intros H. rewrite resolve_array. cbn [nth skipn]. cbv zeta.
  unfold then_ at 1. now rewrite H.
Qed.

Lemma item_beyond (els : list Element) index :
  Z.of_nat (length els) <= index -> item Element (ElementArray els) index = None.
Proof.
  intros H. unfold item.
  destruct (index <? 0) eqn:E; [reflexivity|].
  apply nth_error_None. lia.
Qed.

Lemma item_within (els : list Element) index el :
  0 <= index -> nth_error els (Z.to_nat index) = Some el ->
  item Element (ElementArray els) index = Some el.
Proof.
  intros H Hel. unfold item.
  destruct (index <? 0) eqn:E; [apply Z.ltb_lt in E; lia|exact Hel].
Qed.

(** An in-range index with nothing after it: line 88 returns the element
    itself. *)
Lemma resolve_index_last firstPart index context pathContext w els w' el :
  resolve firstPart context pathContext w = Some (Fulfilled (ElementArray els), w') ->
  0 <= index -> nth_error els (Z.to_nat index) = Some el ->
  resolve (PArray [firstPart; PNumber index]) context pathContext w =
  Some (Fulfilled (BareElement el), w').
Proof.
  intros H Hidx Hel. rewrite (resolve_indexed _ _ _ _ _ _ _ _ H).
  unfold Resolver.selected. now rewrite (item_within _ _ _ Hidx Hel).
Qed.

Lemma exactInteger_between index :
  - 2 ^ 53 < index < 2 ^ 53 -> exactInteger index = true.
Proof.
  intros [Hlow Hhigh]. unfold exactInteger.
  apply andb_true_intro. split; now apply Z.ltb_lt.
Qed.


(** C6: an array path without an index (its second element is [undefined]
    or missing) resolves exactly as its first element does, whatever follows
    the second element. *)
Theorem resolve_without_index :
  forall items context pathContext w,
    nth 1 items PUndefined = PUndefined ->
    resolve (PArray items) context pathContext w =
    resolve (nth 0 items PUndefined) context pathContext w.
Proof.
  intros items context pathContext w H.
  rewrite resolve_array. cbv zeta. rewrite H.
  unfold Resolver.selected. apply then_ret.
Qed.

(** C7: when the index selects an element of what [firstPart] resolved to
    and more of the path follows, the resolution goes on with the rest of the
    path, scoped to the selected element and labelled with the label extended
    by [firstPart].  When what follows is one key, that is the lookup, inside
    the selected element and not from the root, of the selector built for the
    key under the extended label: the elements it finds are the result, and a
    failure of the lookup or of [buildSelector] is a rejection. *)
Theorem resolve_descends_into_selected :
  forall firstPart index rest context pathContext w els w' el,
    resolve firstPart context pathContext w =
      Some (Fulfilled (ElementArray els), w') ->
    0 <= index ->
    nth_error els (Z.to_nat index) = Some el ->
    rest <> [] ->
    resolve (PArray (firstPart :: PNumber index :: rest)) context pathContext w =
    asRejection
      (resolve (PArray rest) (Some el)
         (if truthyPath pathContext
          then PString (toString pathContext ++ "." ++ toString firstPart)
          else firstPart)
         w')
    /\ forall key,
         rest = [key] -> isArray key = false ->
         resolve (PArray (firstPart :: PNumber index :: rest))
           context pathContext w =
         match
           buildSelector selectors
             (if truthyPath pathContext
              then PString (toString pathContext ++ "." ++ toString firstPart)
              else firstPart)
             key
         with
         | Normal selector =>
             match findAllByCssSelector (Within el) selector w' with
             | Some (Fulfilled found, w'') =>
                 Some (Fulfilled (ElementArray found), w'')
             | Some (Rejected e, w'') => Some (Rejected e, w'')
             | Some (Pending, w'') => Some (Pending, w'')
             | Some (Thrown e, w'') => Some (Rejected e, w'')
             | None => None
             end
         | Abrupt e => Some (Rejected e, w')
         end.
Proof.
  intros firstPart index rest context pathContext w els w' el H Hidx Hel Hrest.
  rewrite (resolve_indexed _ _ _ _ _ _ _ _ H).
  unfold Resolver.selected. rewrite (item_within _ _ _ Hidx Hel).
  split.
  - destruct rest as [|x rest]; [contradiction|reflexivity].
  - intros key -> Hkey. unfold extendContext.
    assert (Hlookup : forall label,
              resolve (PArray [key]) (Some el) label =
              then_ (lookup Element W Table selectors buildSelector
                       findAllByCssSelector key (Some el) label)
                    (fun found => ret (Fulfilled found))).
    { intros label. destruct key; try reflexivity. discriminate. }
    rewrite Hlookup. unfold then_, lookup, ret.
    destruct (buildSelector selectors _ key) as [selector|e]; [|reflexivity].
    destruct (findAllByCssSelector (Within el) selector w')
      as [[[found| | |] w'']|]; reflexivity.
Qed.

End Driver.


Lemma resolve_without_index_witness :
  resolveOnPage (PArray [PString "a"; PUndefined; PString "b"]) None PUndefined tt =
  resolveOnPage (PString "a") None PUndefined tt.
Proof.
  apply (resolve_without_index nat unit unit tt sameName pageLookup
           [PString "a"; PUndefined; PString "b"] None PUndefined tt).
  reflexivity.
Defined.

Lemma resolve_descends_into_selected_witness :
  resolveOnPage (PArray [PString "a"; PNumber 2; PString "b"]) None PUndefined tt =
  Some (Fulfilled (ElementArray [31; 32]%nat), tt).
Proof.
  destruct (resolve_descends_into_selected nat unit unit tt sameName pageLookup
              (PString "a") 2 [PString "b"] None PUndefined tt
              [1; 2; 3; 4; 5]%nat tt 3%nat) as (_ & Hkey).
  - reflexivity.
  - lia.
  - reflexivity.
  - discriminate.
  - apply (Hkey (PString "b")); reflexivity.
Defined.

(** C5 on the code: a path that ends in an in-range index resolves to the
    selected element on its own, not to an array that holds it.  Callers that
    take the result for an array see the difference: [count] of such a path
    is [undefined], and the same path used as the first part of another path
    is indexed as if it were an array and reports that [undefined] elements
    were found. *)
Theorem resolve_index_last_is_bare :
  resolveOnPage (PArray [PString "a"; PNumber 2]) None PUndefined tt =
    Some (Fulfilled (BareElement 3%nat), tt)
  /\ resolveOnPage (PArray [PString "a"; PNumber 2]) None PUndefined tt <>
     Some (Fulfilled (ElementArray [3%nat]), tt)
  /\ count nat unit unit tt sameName pageLookup
       (PArray [PString "a"; PNumber 2]) tt =
     Some (Fulfilled JUndefined, tt)
  /\ resolveOnPage
       (PArray [PArray [PString "a"; PNumber 2]; PNumber 0]) None PUndefined tt =
     Some (Rejected
             (JError ("Expected at least 1 elements at region " ++ quote ++
                      "a,2" ++ quote ++ ", but only found undefined.")),
           tt).
Proof.
  repeat split; try reflexivity. discriminate.
Qed.

End ResolverFacts.

(* ------------------------------------------------------------------------ *)
(** ** Further properties of [waitFor] *)

Module WaitForMore.
Import WaitFor WaitForFacts Inputs.

Section Run.

Variable clock : nat -> Z.
Variable poll : nat -> Outcome JsValue.

Local Abbreviation waitFor := (waitFor clock poll).
Local Abbreviation budget := (budget clock).

Lemma budget_nan r n : budget NaN r n = NaN.
Proof.
  revert r. induction n as [|n IH]; intros r; [reflexivity|].
  cbn [WaitFor.budget sub]. apply IH.
Qed.

(** Fuel that covers only retried attempts gives no result. *)
Lemma waitFor_still_polling n options r c :
  (forall i, (i < n)%nat -> falsyResult (poll (c + i)) = true) ->
  (forall i, (i < n)%nat ->
     leb0 (budget (effTimeout options) r (S i)) = false) ->
  waitFor n options (mkWorld r c) = None.
Proof.
  intros Hfalsy Hleft.
  replace n with (n + 0)%nat at 1 by lia.
  rewrite waitFor_retries by assumption.
  destruct n; reflexivity.
Qed.

(** The budget handed on is an integer that never exceeds the one before. *)
Lemma budget_integer T r n : exists b, budget (Num T) r n = Num b.
Proof.
  induction n as [|n (b & Hb)]; [now exists T|].
  rewrite budget_succ, Hb. cbn [sub]. now eexists.
Qed.

(** The run that ends at attempt [n] otherwise than by a fulfilment. *)
Lemma waitFor_ends_unfulfilled n fuel options r c :
  (forall i, (i < n)%nat -> falsyResult (poll (c + i)) = true) ->
  (forall i, (i < n)%nat ->
     leb0 (budget (effTimeout options) r (S i)) = false) ->
  (forall v, poll (c + n) <> Fulfilled v) ->
  (n < fuel)%nat ->
  waitFor fuel options (mkWorld r c) =
  adoptedAfter n (Some (poll (c + n), mkWorld (r + 2 * n + 1) (c + n + 1))).
Proof.
  intros Hfalsy Hleft Hp Hfuel.
  replace fuel with (n + S (fuel - n - 1))%nat by lia.
  rewrite waitFor_retries by assumption.
  rewrite waitFor_unfold.
  replace (S (r + 2 * n)) with (r + 2 * n + 1)%nat by lia.
  replace (S (c + n)) with (c + n + 1)%nat by lia.
  destruct (poll (c + n)) as [v| | |]; try reflexivity.
  now destruct (Hp v).
Qed.

Lemma budget_at_most T r n :
  (forall i, clock i <= clock (S i)) ->
  exists a, budget (Num T) r n = Num a /\ a <= T.
Proof.
  intros Hmono. induction n as [|n (a & Ha & Hle)].
  - exists T. split; [reflexivity|lia].
  - rewrite budget_succ, Ha. cbn [sub]. eexists. split; [reflexivity|].
    pose proof (Hmono (r + 2 * n)%nat) as Hstep.
    replace (S (r + 2 * n)) with (r + 2 * n + 1)%nat in Hstep by lia. lia.
Qed.

(** When every attempt takes a millisecond or more on the clock, [m]
    attempts use up a timeout of [m] or less. *)
Lemma waitFor_bounded m : forall fuel options T r c,
  effTimeout options = Num T ->
  T <= Z.of_nat m ->
  (0 < m)%nat ->
  (forall i, (i < m)%nat -> falsyResult (poll (c + i)) = true) ->
  (forall i, (i < m)%nat -> clock (r + 2 * i) + 1 <= clock (r + 2 * i + 1)) ->
  (m <= fuel)%nat ->
  exists n, (n < m)%nat
    /\ waitFor fuel options (mkWorld r c) =
       Some (Rejected (JError (effErrorMsg options)),
             mkWorld (r + 2 * n + 2) (c + n + 1)).
Proof.
  induction m as [|m IH]; intros fuel options T r c HT Hm Hpos Hfalsy Hslow Hfuel.
  - lia.
  - destruct fuel as [|fuel]; [lia|].
    rewrite waitFor_unfold.
    pose proof (Hfalsy 0%nat ltac:(lia)) as H0.
    replace (c + 0)%nat with c in H0 by lia.
    destruct (poll c) as [v| | |]; try discriminate.
    simpl in H0. destruct (truthy v); [discriminate|].
    pose proof (Hslow 0%nat ltac:(lia)) as Hd.
    replace (r + 2 * 0 + 1)%nat with (S r) in Hd by lia.
    replace (r + 2 * 0)%nat with r in Hd by lia.
    cbv zeta. rewrite HT. cbn [sub leb0].
    destruct (T - (clock (S r) - clock r) <=? 0) eqn:E.
    + exists 0%nat. split; [lia|]. do 2 f_equal. f_equal; lia.
    + apply Z.leb_gt in E.
      destruct (IH fuel
                  (Some (mkOptions (Some (Num (T - (clock (S r) - clock r))))
                                   (Some (effErrorMsg options))))
                  (T - (clock (S r) - clock r)) (S (S r)) (S c))
        as (n & Hn & Hrun).
      * reflexivity.
      * lia.
      * lia.
      * intros i Hi. specialize (Hfalsy (S i) ltac:(lia)).
        now replace (S c + i)%nat with (c + S i)%nat by lia.
      * intros i Hi. specialize (Hslow (S i) ltac:(lia)).
        replace (S (S r) + 2 * i)%nat with (r + 2 * S i)%nat by lia.
        replace (r + 2 * S i + 1)%nat with (S (r + 2 * S i)) in Hslow by lia.
        replace (r + 2 * S i + 1)%nat with (S (r + 2 * S i)) by lia.
        exact Hslow.
      * lia.
      * exists (S n). split; [lia|].
        rewrite Hrun, effErrorMsg_idem. cbn [asRejection].
        do 2 f_equal. f_equal; lia.
Qed.

End Run.

(** X1: an [options.timeout] that is [undefined] (the key is there, its
    value is not a number) sets no deadline.  While [conditionFn] resolves
    falsy the call goes on polling, whatever the clock shows: [n] falsy
    results leave it without an outcome, and a truthy result at any later
    attempt still fulfils it. *)
Theorem waitFor_undefined_timeout_has_no_deadline :
  forall clock poll msg r c n,
    (forall i, (i < n)%nat -> falsyResult (poll (c + i)%nat) = true) ->
    waitFor clock poll n (Some (mkOptions (Some NaN) msg)) (mkWorld r c) = None
    /\ forall fuel v,
         poll (c + n)%nat = Fulfilled v -> truthy v = true -> (n < fuel)%nat ->
         waitFor clock poll fuel (Some (mkOptions (Some NaN) msg)) (mkWorld r c) =
         Some (Fulfilled JUndefined, mkWorld (r + 2 * n + 1) (c + n + 1)).
Proof.
  intros clock poll msg r c n Hfalsy.
  assert (Hleft : forall i, (i < n)%nat ->
            leb0 (budget clock
                    (effTimeout (Some (mkOptions (Some NaN) msg))) r (S i)) = false).
  { intros i _. cbn [effTimeout timeout]. now rewrite budget_nan. }
  split.
  - now apply waitFor_still_polling.
  - intros fuel v Hp Hv Hfuel. now apply waitFor_ends_truthy with (v := v).
Qed.

Lemma waitFor_undefined_timeout_has_no_deadline_witness :
  waitFor (readings [0; 5000; 5000; 900000; 900000])
          (results [falsy; falsy; Fulfilled (JBool true)]) 3
          (Some (mkOptions (Some NaN) None)) (mkWorld 0 0) =
  Some (Fulfilled JUndefined, mkWorld 5 3).
Proof.
  destruct (waitFor_undefined_timeout_has_no_deadline
              (readings [0; 5000; 5000; 900000; 900000])
              (results [falsy; falsy; Fulfilled (JBool true)]) None 0 0 2)
    as (_ & Hlater).
  - intros i Hi. below_cases i.
  - apply (Hlater 3%nat (JBool true)); [reflexivity | reflexivity | lia].
Defined.

(** X2: the timeout never fires early.  On a clock that does not run
    backwards, as long as every falsy result is observed before the first
    start plus the original timeout the call retries, so that a truthy result
    of the next invocation fulfils it. *)
Theorem waitFor_no_early_timeout :
  forall clock poll options T r c n v fuel,
    effTimeout options = Num T ->
    (forall j, clock j <= clock (S j)) ->
    (forall i, (i < n)%nat -> falsyResult (poll (c + i)%nat) = true) ->
    (forall i, (i < n)%nat -> clock (r + 2 * i + 1)%nat < clock r + T) ->
    poll (c + n)%nat = Fulfilled v ->
    truthy v = true ->
    (n < fuel)%nat ->
    waitFor clock poll fuel options (mkWorld r c) =
    Some (Fulfilled JUndefined, mkWorld (r + 2 * n + 1) (c + n + 1)).
Proof.
  intros clock poll options T r c n v fuel HT Hmono Hfalsy Hbefore Hp Hv Hfuel.
  apply waitFor_ends_truthy with (v := v); auto.
  intros i Hi. rewrite HT. apply before_deadline_retries; auto.
Qed.

Lemma waitFor_no_early_timeout_witness :
  waitFor ticking (results [falsy; falsy; Fulfilled (JBool true)]) 3
          (Some (mkOptions (Some (Num 4)) None)) (mkWorld 0 0) =
  Some (Fulfilled JUndefined, mkWorld 5 3).
Proof.
  apply (waitFor_no_early_timeout ticking
           (results [falsy; falsy; Fulfilled (JBool true)])
           (Some (mkOptions (Some (Num 4)) None)) 4 0 0 2 (JBool true) 3).
  - reflexivity.
  - intros j. unfold ticking. lia.
  - intros i Hi. below_cases i.
  - intros i Hi. below_cases i.
  - reflexivity.
  - reflexivity.
  - lia.
Defined.

(** X3: the number of polls is bounded by the timeout.  When every attempt
    takes a millisecond or more on the clock and [conditionFn] keeps
    resolving falsy, a call with a timeout of [m] milliseconds or less
    ([m >= 1]) rejects with the timeout error after [m] invocations at
    most. *)
Theorem waitFor_polls_at_most_timeout_times :
  forall clock poll options T m r c fuel,
    effTimeout options = Num T ->
    T <= Z.of_nat m ->
    (0 < m)%nat ->
    (forall i, (i < m)%nat -> falsyResult (poll (c + i)%nat) = true) ->
    (forall i, (i < m)%nat ->
       clock (r + 2 * i)%nat + 1 <= clock (r + 2 * i + 1)%nat) ->
    (m <= fuel)%nat ->
    exists n, (n < m)%nat
      /\ waitFor clock poll fuel options (mkWorld r c) =
         Some (Rejected (JError (effErrorMsg options)),
               mkWorld (r + 2 * n + 2) (c + n + 1)).
Proof.
  intros clock poll options T m r c fuel. apply waitFor_bounded.
Qed.

Lemma waitFor_polls_at_most_timeout_times_witness :
  exists n, (n < 3)%nat
    /\ waitFor ticking (results [falsy; falsy; falsy]) 3
         (Some (mkOptions (Some (Num 3)) None)) (mkWorld 0 0) =
       Some (Rejected (JError "Timeout"), mkWorld (0 + 2 * n + 2) (0 + n + 1)).
Proof.
  apply (waitFor_polls_at_most_timeout_times ticking
           (results [falsy; falsy; falsy])
           (Some (mkOptions (Some (Num 3)) None)) 3 3 0 0 3).
  - reflexivity.
  - vm_compute; discriminate.
  - lia.
  - intros i Hi. below_cases i.
  - intros i Hi. unfold ticking. lia.
  - lia.
Defined.

(** X4: the timeout is checked only when [conditionFn] resolves.  When the
    promise of an invocation never settles, after [n] retried attempts,
    [waitFor] never settles either, whatever the timeout and however far the
    clock moves on: no clock reading follows the invocation. *)
Theorem waitFor_stalls_on_pending :
  forall clock poll options r c n fuel,
    (forall i, (i < n)%nat -> falsyResult (poll (c + i)%nat) = true) ->
    (forall i, (i < n)%nat ->
       leb0 (budget clock (effTimeout options) r (S i)) = false) ->
    poll (c + n)%nat = Pending ->
    (n < fuel)%nat ->
    waitFor clock poll fuel options (mkWorld r c) =
    Some (Pending, mkWorld (r + 2 * n + 1) (c + n + 1)).
Proof.
  intros clock poll options r c n fuel Hfalsy Hleft Hp Hfuel.
  rewrite (waitFor_ends_unfulfilled clock poll n) by (auto; congruence).
  rewrite Hp. now destruct n.
Qed.

Lemma waitFor_stalls_on_pending_witness :
  waitFor (readings [0; 1; 1]) (results [falsy]) 2
          (Some (mkOptions (Some (Num 10)) None)) (mkWorld 0 0) =
  Some (Pending, mkWorld 3 2).
Proof.
  apply (waitFor_stalls_on_pending (readings [0; 1; 1]) (results [falsy])
           (Some (mkOptions (Some (Num 10)) None)) 0 0 1 2).
  - intros i Hi. below_cases i.
  - intros i Hi. below_cases i.
  - reflexivity.
  - lia.
Defined.

(** X5: an exception that [conditionFn] raises when it is called, instead
    of returning a promise, leaves [waitFor] by two ways: raised at the first
    invocation it is raised by [waitFor] itself, where no promise exists yet;
    raised at a retry, inside the callback of [then], it rejects the promise
    that [waitFor] returned. *)
Theorem waitFor_exception_of_conditionFn :
  forall clock poll options r c n e fuel,
    (forall i, (i < n)%nat -> falsyResult (poll (c + i)%nat) = true) ->
    (forall i, (i < n)%nat ->
       leb0 (budget clock (effTimeout options) r (S i)) = false) ->
    poll (c + n)%nat = Thrown e ->
    (n < fuel)%nat ->
    waitFor clock poll fuel options (mkWorld r c) =
    Some (match n with O => Thrown e | S _ => Rejected e end,
          mkWorld (r + 2 * n + 1) (c + n + 1)).
Proof.
  intros clock poll options r c n e fuel Hfalsy Hleft Hp Hfuel.
  rewrite (waitFor_ends_unfulfilled clock poll n) by (auto; congruence).
  rewrite Hp. now destruct n.
Qed.

Lemma waitFor_exception_of_conditionFn_witness :
  waitFor (readings [0; 1; 1]) (results [falsy; Thrown (JError "boom")]) 2
          None (mkWorld 0 0) =
  Some (Rejected (JError "boom"), mkWorld 3 2).
Proof.
  apply (waitFor_exception_of_conditionFn
           (readings [0; 1; 1]) (results [falsy; Thrown (JError "boom")])
           None 0 0 1 (JError "boom") 2).
  - intros i Hi. below_cases i.
  - intros i Hi. below_cases i.
  - reflexivity.
  - lia.
Defined.

(** X6: the message given to the first call is the message of the timeout
    error, at whichever retry the budget runs out: a non-empty
    [options.errorMsg] reaches the rejection unchanged, after exactly [n + 1]
    invocations and [2n + 2] clock readings. *)
Theorem waitFor_timeout_carries_errorMsg :
  forall clock poll t msg r c n fuel,
    msg <> ""%string ->
    (forall i, (i <= n)%nat -> falsyResult (poll (c + i)%nat) = true) ->
    (forall i, (i < n)%nat ->
       leb0 (budget clock
               (effTimeout (Some (mkOptions t (Some msg)))) r (S i)) = false) ->
    leb0 (budget clock
            (effTimeout (Some (mkOptions t (Some msg)))) r (S n)) = true ->
    (n < fuel)%nat ->
    waitFor clock poll fuel (Some (mkOptions t (Some msg))) (mkWorld r c) =
    Some (Rejected (JError msg), mkWorld (r + 2 * n + 2) (c + n + 1)).
Proof.
  intros clock poll t msg r c n fuel Hmsg Hfalsy Hleft Hout Hfuel.
  rewrite (waitFor_ends_timeout clock poll n fuel _ r c);
    [ | intros i Hi; apply Hfalsy; lia | assumption | assumption
      | apply Hfalsy; lia | assumption ].
  cbn [effErrorMsg errorMsg orElse].
  apply String.eqb_neq in Hmsg. now rewrite Hmsg.
Qed.

Lemma waitFor_timeout_carries_errorMsg_witness :
  waitFor ticking (results [falsy; falsy]) 2
          (Some (mkOptions (Some (Num 2)) (Some "not there"))) (mkWorld 0 0) =
  Some (Rejected (JError "not there"), mkWorld 4 2).
Proof.
  apply (waitFor_timeout_carries_errorMsg ticking (results [falsy; falsy])
           (Some (Num 2)) "not there" 0 0 1 2).
  - discriminate.
  - intros i Hi. below_cases i.
  - intros i Hi. below_cases i.
  - reflexivity.
  - lia.
Defined.

(** X7: on a clock that does not run backwards no retry has more time than
    the original timeout.  Whatever the attempts before it spent, an attempt
    (the one after [n] retries) whose falsy result comes the original timeout
    or more after that attempt's own start ends the call with the timeout
    error. *)
Theorem waitFor_budget_shrinks :
  forall clock poll options T r c n fuel,
    effTimeout options = Num T ->
    (forall i, clock i <= clock (S i)) ->
    (forall i, (i <= n)%nat -> falsyResult (poll (c + i)%nat) = true) ->
    (forall i, (i < n)%nat ->
       leb0 (budget clock (effTimeout options) r (S i)) = false) ->
    T <= clock (r + 2 * n + 1)%nat - clock (r + 2 * n)%nat ->
    (n < fuel)%nat ->
    waitFor clock poll fuel options (mkWorld r c) =
    Some (Rejected (JError (effErrorMsg options)),
          mkWorld (r + 2 * n + 2) (c + n + 1)).
Proof.
  intros clock poll options T r c n fuel HT Hmono Hfalsy Hleft Hlong Hfuel.
  apply (waitFor_ends_timeout clock poll n fuel options r c);
    [ intros i Hi; apply Hfalsy; lia | assumption | assumption
    | apply Hfalsy; lia | ].
  destruct (budget_at_most clock T r n Hmono) as (a & Ha & HaT).
  rewrite HT, budget_succ, Ha. cbn [sub leb0]. apply Z.leb_le. lia.
Qed.

Lemma waitFor_budget_shrinks_witness :
  waitFor stalling (results [falsy; falsy; falsy]) 2
          (Some (mkOptions (Some (Num 5)) None)) (mkWorld 0 0) =
  Some (Rejected (JError "Timeout"), mkWorld 4 2).
Proof.
  apply (waitFor_budget_shrinks stalling (results [falsy; falsy; falsy])
           (Some (mkOptions (Some (Num 5)) None)) 5 0 0 1 2).
  - reflexivity.
  - intros i. unfold stalling.
    destruct (Nat.ltb_spec i 3), (Nat.ltb_spec (S i) 3); lia.
  - intros i Hi. below_cases i.
  - intros i Hi. below_cases i.
  - vm_compute; discriminate.
  - lia.
Defined.

End WaitForMore.

(* ------------------------------------------------------------------------ *)
(** ** Further properties of [_$] *)

Module ResolverMore.
Import Resolver ResolverFacts Inputs.

Section Driver.

Variables (Element W Table : Type).
Variable selectors : Table.
Variable buildSelector : Table -> PathValue -> PathValue -> Completion string.
Variable findAllByCssSelector :
  @Context Element -> string -> St W (Outcome (list Element)).

Local Abbreviation resolve :=
  (resolve Element W Table selectors buildSelector findAllByCssSelector).

Lemma item_negative (els : @Resolved Element) index :
  index < 0 -> item Element els index = None.
Proof.
  intros H. unfold item. destruct els; [|reflexivity].
  apply Z.ltb_lt in H. now rewrite H.
Qed.

(** X8: a negative index (above [- 2 ^ 53], where the index plus one is
    exact) selects nothing, however many elements there are: the resolution
    is rejected with the message of the missing element, in which the count
    asked for is the index plus one. *)
Theorem resolve_negative_index :
  forall firstPart index rest context pathContext w els w',
    resolve firstPart context pathContext w =
      Some (Fulfilled (ElementArray els), w') ->
    - 2 ^ 53 < index < 0 ->
    resolve (PArray (firstPart :: PNumber index :: rest)) context pathContext w =
    Some (Rejected
            (JError ("Expected at least " ++ decimal (index + 1) ++
                     " elements at region " ++ quote ++
                     (if truthyPath pathContext
                      then toString pathContext ++ "." ++ toString firstPart
                      else toString firstPart) ++ quote ++
                     ", but only found " ++
                     decimal (Z.of_nat (length els)) ++ ".")),
          w').
Proof.
  intros firstPart index rest context pathContext w els w' H [Hexact Hidx].
  rewrite (resolve_indexed _ _ _ _ _ _ _ _ _ _ _ _ _ _ H).
  unfold Resolver.selected. rewrite (item_negative _ _ Hidx).
  unfold expectedAtLeast. rewrite exactInteger_between by lia.
  unfold ret, asRejection, extendContext, lengthText.
  cbn [lengthProp]. destruct (truthyPath pathContext); reflexivity.
Qed.

(** X9: when the resolution of the first element of an array path does not
    fulfil (it is rejected, never settles, or raises), the array path ends
    the same way in the same state, whatever its index and the rest of it
    are: nothing more is looked up. *)
Theorem resolve_first_part_failure :
  forall items context pathContext w o w',
    resolve (nth 0 items PUndefined) context pathContext w = Some (o, w') ->
    (forall els, o <> Fulfilled els) ->
    resolve (PArray items) context pathContext w = Some (o, w').
Proof.
  intros items context pathContext w o w' H Ho.
  rewrite resolve_array. cbv zeta. unfold then_. rewrite H.
  destruct o as [els| | |]; try reflexivity. now destruct (Ho els).
Qed.

(** X10: the label of the message follows the descent.  When a path
    [[a, i, b, j]] of two keys and two indices finds its first element and
    then too few elements [b] inside it ([j] below [2 ^ 53], where the index
    plus one is exact), the region named in the message is the two keys joined
    by a dot. *)
Theorem resolve_label_joins_keys :
  forall a i b j rest context w els w1 el els2 w2,
    a <> ""%string ->
    resolve (PString a) context PUndefined w =
      Some (Fulfilled (ElementArray els), w1) ->
    0 <= i ->
    nth_error els (Z.to_nat i) = Some el ->
    resolve (PString b) (Some el) (PString a) w1 =
      Some (Fulfilled (ElementArray els2), w2) ->
    Z.of_nat (length els2) <= j < 2 ^ 53 ->
    resolve (PArray (PString a :: PNumber i :: PString b :: PNumber j :: rest))
      context PUndefined w =
    Some (Rejected
            (JError ("Expected at least " ++ decimal (j + 1) ++
                     " elements at region " ++ quote ++ (a ++ "." ++ b) ++ quote ++
                     ", but only found " ++
                     decimal (Z.of_nat (length els2)) ++ ".")),
          w2).
Proof.
  intros a i b j rest context w els w1 el els2 w2 Ha H1 Hi Hel H2 [Hj Hexact].
  rewrite (resolve_indexed _ _ _ _ _ _ _ _ _ _ _ _ _ _ H1).
  unfold Resolver.selected at 1. rewrite (item_within _ _ _ _ Hi Hel).
  cbn [extendContext truthyPath].
  rewrite (resolve_indexed _ _ _ _ _ _ _ _ _ _ _ _ _ _ H2).
  unfold Resolver.selected. rewrite (item_beyond _ _ _ Hj).
  unfold expectedAtLeast. rewrite exactInteger_between by lia.
  unfold ret, asRejection, extendContext, lengthText.
  cbn [lengthProp truthyPath toString].
  apply String.eqb_neq in Ha. rewrite Ha. cbn [negb toString]. reflexivity.
Qed.

(** X11: a path that ends in an index which selects an element resolves to
    that element itself, the value [el] of line 88, and looks nothing up
    after the first part. *)
Theorem resolve_ending_in_index :
  forall firstPart index context pathContext w els w' el,
    resolve firstPart context pathContext w =
      Some (Fulfilled (ElementArray els), w') ->
    0 <= index ->
    nth_error els (Z.to_nat index) = Some el ->
    resolve (PArray [firstPart; PNumber index]) context pathContext w =
    Some (Fulfilled (BareElement el), w').
Proof.
  intros firstPart index context pathContext w els w' el H Hidx Hel.
  rewrite (resolve_indexed _ _ _ _ _ _ _ _ _ _ _ _ _ _ H).
  unfold Resolver.selected. now rewrite (item_within _ _ _ _ Hidx Hel).
Qed.

End Driver.

Lemma resolve_negative_index_witness :
  resolveOnPage (PArray [PString "a"; PNumber (-1)]) None PUndefined tt =
  Some (Rejected
          (JError ("Expected at least 0 elements at region " ++ quote ++ "a" ++
                   quote ++ ", but only found 5.")),
        tt).
Proof.
  apply (resolve_negative_index nat unit unit tt sameName pageLookup
           (PString "a") (-1) [] None PUndefined tt [1; 2; 3; 4; 5]%nat tt).
  - reflexivity.
  - split; reflexivity.
Defined.

Lemma resolve_first_part_failure_witness :
  resolve nat unit unit tt sameName lostSession
    (PArray [PString "a"; PNumber 2; PString "b"]) None PUndefined tt =
  Some (Rejected (JError "no such session"), tt).
Proof.
  apply (resolve_first_part_failure nat unit unit tt sameName lostSession
           [PString "a"; PNumber 2; PString "b"] None PUndefined tt
           (Rejected (JError "no such session")) tt).
  - reflexivity.
  - discriminate.
Defined.

Lemma resolve_label_joins_keys_witness :
  resolveOnPage (PArray [PString "a"; PNumber 2; PString "b"; PNumber 2])
    None PUndefined tt =
  Some (Rejected
          (JError ("Expected at least 3 elements at region " ++ quote ++
                   "a.b" ++ quote ++ ", but only found 2.")),
        tt).
Proof.
  apply (resolve_label_joins_keys nat unit unit tt sameName pageLookup
           "a" 2 "b" 2 [] None tt [1; 2; 3; 4; 5]%nat tt 3%nat
           [31; 32]%nat tt).
  - discriminate.
  - reflexivity.
  - lia.
  - reflexivity.
  - reflexivity.
  - split; [vm_compute; discriminate | reflexivity].
Defined.

Lemma resolve_ending_in_index_witness :
  resolveOnPage (PArray [PString "a"; PNumber 0]) None PUndefined tt =
  Some (Fulfilled (BareElement 1%nat), tt).
Proof.
  apply (resolve_ending_in_index nat unit unit tt sameName pageLookup
           (PString "a") 0 None PUndefined tt [1; 2; 3; 4; 5]%nat tt 1%nat).
  - reflexivity.
  - lia.
  - reflexivity.
Defined.

End ResolverMore.

(* ------------------------------------------------------------------------ *)
(** ** Properties of [waitForRegion] and [selectOption] *)

Module DriverOpsFacts.
Import WaitFor Resolver DriverOps Inputs.

(** The two models of [waitFor] are one: the run over the counted world is
    the run over any world, at that world. *)
Lemma waitFor_is_waitForIn clock poll fuel options :
  WaitFor.waitFor clock poll fuel options =
  waitForIn World (WaitFor.getTime clock) (WaitFor.conditionFn poll) fuel options.
Proof. reflexivity. Qed.

Section Over.

Variable W : Type.
Variable getTime : St W Z.
Variable conditionFn : St W (Outcome JsValue).

Local Abbreviation waitForIn := (waitForIn W getTime conditionFn).

(** One unfolding of [waitFor] over [W]. *)
Lemma waitForIn_unfold fuel options w :
  waitForIn (S fuel) options w =
  match getTime w with
  | None => None
  | Some (start, w1) =>
      match conditionFn w1 with
      | None => None
      | Some (Fulfilled result, w2) =>
          if truthy result then Some (Fulfilled JUndefined, w2)
          else
            match getTime w2 with
            | None => None
            | Some (now, w3) =>
                let remaining := sub (effTimeout options) (now - start) in
                if leb0 remaining
                then Some (Rejected (JError (effErrorMsg options)), w3)
                else
                  asRejection
                    (waitForIn fuel
                       (Some (mkOptions (Some remaining)
                                        (Some (effErrorMsg options))))
                       w3)
            end
      | Some (Rejected e, w2) => Some (Rejected e, w2)
      | Some (Pending, w2) => Some (Pending, w2)
      | Some (Thrown e, w2) => Some (Thrown e, w2)
      end
  end.
Proof.
  destruct options as [[t m]|]; cbn -[leb0 sub];
    unfold waitForIn_body, bind, then_, ret; cbn -[leb0 sub];
    (destruct (getTime w) as [[start w1]|]; [|reflexivity]);
    (destruct (conditionFn w1) as [[[v| | |] w2]|]; try reflexivity);
    (destruct (truthy v); [reflexivity|]);
    (destruct (getTime w2) as [[now w3]|]; [|reflexivity]);
    cbn -[leb0 sub];
    match goal with |- context [leb0 ?x] => destruct (leb0 x) end;
    reflexivity.
Qed.

Hypothesis conditionFn_falsy :
  forall w, exists v w',
    conditionFn w = Some (Fulfilled v, w') /\ truthy v = false.

(** While [conditionFn] resolves falsy the call can end in one way only,
    by the timeout error. *)
Lemma waitForIn_ends_by_timeout fuel : forall options w res w',
  waitForIn fuel options w = Some (res, w') ->
  res = Rejected (JError (effErrorMsg options)).
Proof.
  induction fuel as [|fuel IH]; intros options w res w' H; [discriminate|].
  rewrite waitForIn_unfold in H.
  destruct (getTime w) as [[start w1]|]; [|discriminate].
  destruct (conditionFn_falsy w1) as (v & w2 & Hc & Hv). rewrite Hc, Hv in H.
  destruct (getTime w2) as [[now w3]|]; [|discriminate].
  cbv zeta in H. destruct (leb0 _); [congruence|].
  destruct (waitForIn fuel _ w3) as [[res0 w0]|] eqn:E; [|discriminate].
  apply IH in E. rewrite WaitForFacts.effErrorMsg_idem in E. subst res0.
  cbn [asRejection] in H. congruence.
Qed.

(** With a timeout that is not a number the call does not end at all. *)
Lemma waitForIn_without_deadline fuel : forall options w,
  effTimeout options = NaN ->
  waitForIn fuel options w = None.
Proof.
  induction fuel as [|fuel IH]; intros options w HT; [reflexivity|].
  rewrite waitForIn_unfold.
  destruct (getTime w) as [[start w1]|]; [|reflexivity].
  destruct (conditionFn_falsy w1) as (v & w2 & -> & Hv). rewrite Hv.
  destruct (getTime w2) as [[now w3]|]; [|reflexivity].
  cbv zeta. rewrite HT. cbn [sub leb0].
  rewrite IH by reflexivity. reflexivity.
Qed.

End Over.

Lemma indexOf_absent text value :
  ~ In value text -> indexOf text value = -1.
Proof.
  induction text as [|t text IH]; intros H; [reflexivity|].
  cbn [indexOf].
  destruct (String.eqb_spec t value) as [->|_]; [now destruct H; left|].
  rewrite IH by (intros Hin; apply H; now right). reflexivity.
Qed.

(** [indexOf] finds the first occurrence. *)
Lemma indexOf_first before value after :
  ~ In value before ->
  indexOf (before ++ value :: after) value = Z.of_nat (length before).
Proof.
  induction before as [|t before IH]; intros H.
  - cbn [app indexOf length]. now rewrite String.eqb_refl.
  - cbn [app indexOf length].
    destruct (String.eqb_spec t value) as [->|_]; [now destruct H; left|].
    rewrite IH by (intros Hin; apply H; now right).
    destruct (Z.of_nat (length before) =? -1) eqn:E;
      [apply Z.eqb_eq in E; lia | lia].
Qed.

Section Driver.

Variables (Element W Table : Type).
Variable selectors : Table.
Variable buildSelector : Table -> PathValue -> PathValue -> Completion string.
Variable findAllByCssSelector :
  @Context Element -> string -> St W (Outcome (list Element)).
Variable getTime : St W Z.
Variable findAllByTagName : Element -> string -> St W (Outcome (list Element)).
Variable readAll : list Element -> St W (Outcome (list string)).
Variable execute : option Element -> St W (Outcome JsValue).

Local Abbreviation resolve :=
  (resolve Element W Table selectors buildSelector findAllByCssSelector).
Local Abbreviation regionFound :=
  (regionFound Element W Table selectors buildSelector findAllByCssSelector).
Local Abbreviation waitForRegion :=
  (waitForRegion Element W Table selectors buildSelector findAllByCssSelector
     getTime).
Local Abbreviation selectOption :=
  (selectOption Element W findAllByTagName readAll execute).

(** What the function handed to [waitFor] answers, by what the region
    resolves to. *)
Lemma regionFound_fulfilled region w els w' :
  resolve region None PUndefined w = Some (Fulfilled els, w') ->
  regionFound region w =
  Some (Fulfilled (JBool match els with
                         | ElementArray (_ :: _) => true
                         | _ => false
                         end), w').
Proof.
  intros H. unfold DriverOps.regionFound, then_. rewrite H.
  destruct els as [[|el l]|el]; reflexivity.
Qed.

Lemma regionMessage region timeout :
  effErrorMsg (Some (regionOptions region timeout)) =
  "Unable to find element at region " ++ quote ++ toString region ++ quote.
Proof. reflexivity. Qed.

(** X12: a region that is there when [waitForRegion] is called is found at
    once: when the first poll of the call resolves the region to an array
    that is not empty, the call is fulfilled with [undefined], whatever the
    timeout (given or not, zero or negative), and the clock is not read
    again. *)
Theorem waitForRegion_found_at_once :
  forall fuel region timeout w start w1 els w2,
    getTime w = Some (start, w1) ->
    resolve region None PUndefined w1 = Some (Fulfilled (ElementArray els), w2) ->
    els <> [] ->
    waitForRegion (S fuel) region timeout w = Some (Fulfilled JUndefined, w2).
Proof.
  intros fuel region timeout w start w1 els w2 Ht Hr Hels.
  unfold DriverOps.waitForRegion. rewrite waitForIn_unfold, Ht.
  rewrite (regionFound_fulfilled _ _ _ _ Hr).
  destruct els; [contradiction|reflexivity].
Qed.

(** X13: when the region resolves to no element and the time between the
    two clock readings of the attempt is the timeout or more,
    [waitForRegion] rejects with the error whose message is
    [Unable to find element at region "<region>"]. *)
Theorem waitForRegion_timeout_message :
  forall fuel region T w start w1 w2 now w3,
    getTime w = Some (start, w1) ->
    resolve region None PUndefined w1 = Some (Fulfilled (ElementArray []), w2) ->
    getTime w2 = Some (now, w3) ->
    T <= now - start ->
    waitForRegion (S fuel) region (Some T) w =
    Some (Rejected
            (JError ("Unable to find element at region " ++ quote ++
                     toString region ++ quote)),
          w3).
Proof.
  intros fuel region T w start w1 w2 now w3 Ht Hr Ht' HT.
  unfold DriverOps.waitForRegion. rewrite waitForIn_unfold, Ht.
  rewrite (regionFound_fulfilled _ _ _ _ Hr). cbn [truthy]. rewrite Ht'.
  cbv zeta. rewrite regionMessage. cbn [effTimeout regionOptions timeout sub leb0].
  assert ((T - (now - start) <=? 0) = true) as -> by (apply Z.leb_le; lia).
  reflexivity.
Qed.

(** X14: [waitForRegion] called without a timeout never gives up.  The
    options it builds have the key [timeout] with the value [undefined], so
    that the default of 1000 is not taken and no deadline applies: while the
    region resolves to no element the call has no outcome, however many
    attempts it is given. *)
Theorem waitForRegion_without_timeout_never_gives_up :
  forall region,
    (forall w, exists w',
       resolve region None PUndefined w = Some (Fulfilled (ElementArray []), w')) ->
    forall fuel w, waitForRegion fuel region None w = None.
Proof.
  intros region Hempty fuel w.
  unfold DriverOps.waitForRegion. apply waitForIn_without_deadline; [|reflexivity].
  intros w0. destruct (Hempty w0) as (w' & Hr).
  exists (JBool false), w'. split; [|reflexivity].
  now rewrite (regionFound_fulfilled _ _ _ _ Hr).
Qed.

(** X15: a region whose path ends in an index is never found.  Such a path
    resolves to an element, which has no [length]; the poll answers false
    each time, and the call can end only by the timeout error although the
    element is there. *)
Theorem waitForRegion_indexed_region_never_found :
  forall region,
    (forall w, exists el w',
       resolve region None PUndefined w = Some (Fulfilled (BareElement el), w')) ->
    forall fuel timeout w res w',
      waitForRegion fuel region timeout w = Some (res, w') ->
      res = Rejected
              (JError ("Unable to find element at region " ++ quote ++
                       toString region ++ quote)).
Proof.
  intros region Hbare fuel timeout w res w' H.
  unfold DriverOps.waitForRegion in H.
  apply waitForIn_ends_by_timeout in H; [now rewrite regionMessage in H|].
  intros w0. destruct (Hbare w0) as (el & w1 & Hr).
  exists (JBool false), w1. split; [|reflexivity].
  now rewrite (regionFound_fulfilled _ _ _ _ Hr).
Qed.

(** What the two first steps of [selectOption] hand to the third. *)
Lemma selectOption_read element value w options w1 text w2 :
  findAllByTagName element "option" w = Some (Fulfilled options, w1) ->
  readAll options w1 = Some (Fulfilled text, w2) ->
  selectOption element value w =
  asRejection
    (if indexOf text value =? -1
     then Some (Thrown (JError ("Could not find option value " ++ quote ++
                                value ++ quote ++ ".")), w2)
     else execute (nth_error options (Z.to_nat (indexOf text value))) w2).
Proof.
  intros Hf Hr. unfold DriverOps.selectOption, then_, keeping.
  rewrite Hf, Hr. cbn [asRejection].
  destruct (indexOf text value =? -1); reflexivity.
Qed.

(** X16: when no option has the text asked for, [selectOption] rejects with
    the error [Could not find option value "<value>".] and runs no script in
    the browser: the state is the one the reading of the texts left. *)
Theorem selectOption_unknown_value :
  forall element value w options w1 text w2,
    findAllByTagName element "option" w = Some (Fulfilled options, w1) ->
    readAll options w1 = Some (Fulfilled text, w2) ->
    ~ In value text ->
    selectOption element value w =
    Some (Rejected (JError ("Could not find option value " ++ quote ++
                            value ++ quote ++ ".")),
          w2).
Proof.
  intros element value w options w1 text w2 Hf Hr Hin.
  rewrite (selectOption_read _ _ _ _ _ _ _ Hf Hr).
  now rewrite (indexOf_absent _ _ Hin).
Qed.

(** X17: [selectOption] selects the first option that has the text asked
    for.  When the text occurs, the script runs on the element at the
    position of its first occurrence among the texts, later options with the
    same text notwithstanding, and its outcome is the outcome of the call. *)
Theorem selectOption_first_match :
  forall element value w options w1 (before after : list string) w2,
    findAllByTagName element "option" w = Some (Fulfilled options, w1) ->
    readAll options w1 = Some (Fulfilled (before ++ value :: after)%list, w2) ->
    ~ In value before ->
    selectOption element value w =
    asRejection (execute (nth_error options (length before)) w2).
Proof.
  intros element value w options w1 before after w2 Hf Hr Hin.
  rewrite (selectOption_read _ _ _ _ _ _ _ Hf Hr).
  rewrite (indexOf_first _ _ _ Hin), Nat2Z.id.
  destruct (Z.of_nat (length before) =? -1) eqn:E;
    [apply Z.eqb_eq in E; lia | reflexivity].
Qed.

(** X18: when the options cannot be listed or their texts cannot be read,
    [selectOption] is rejected with the same reason and runs no script. *)
Theorem selectOption_lookup_failure :
  forall element value w e w1,
    (findAllByTagName element "option" w = Some (Rejected e, w1)
     \/ exists options w0,
          findAllByTagName element "option" w = Some (Fulfilled options, w0)
          /\ readAll options w0 = Some (Rejected e, w1)) ->
    selectOption element value w = Some (Rejected e, w1).
Proof.
  intros element value w e w1 [Hf | (options & w0 & Hf & Hr)];
    unfold DriverOps.selectOption, then_, keeping.
  - now rewrite Hf.
  - now rewrite Hf, Hr.
Qed.

End Driver.

Lemma waitForRegion_found_at_once_witness :
  waitForRegion nat nat unit tt sameName sessionLookup sessionTime
    1 (PString "a") None 0%nat =
  Some (Fulfilled JUndefined, 1%nat).
Proof.
  apply (waitForRegion_found_at_once nat nat unit tt sameName sessionLookup
           sessionTime 0 (PString "a") None 0%nat 0 1%nat
           [1; 2; 3; 4; 5]%nat 1%nat).
  - reflexivity.
  - reflexivity.
  - discriminate.
Defined.

Lemma waitForRegion_timeout_message_witness :
  waitForRegion nat nat unit tt sameName sessionLookup sessionTime
    1 (PString "menu") (Some 1) 0%nat =
  Some (Rejected
          (JError ("Unable to find element at region " ++ quote ++ "menu" ++
                   quote)),
        2%nat).
Proof.
  apply (waitForRegion_timeout_message nat nat unit tt sameName sessionLookup
           sessionTime 0 (PString "menu") 1 0%nat 0 1%nat 1%nat 1 2%nat).
  - reflexivity.
  - reflexivity.
  - reflexivity.
  - lia.
Defined.

Lemma waitForRegion_without_timeout_never_gives_up_witness :
  waitForRegion nat nat unit tt sameName sessionLookup sessionTime
    40 (PString "menu") None 0%nat = None.
Proof.
  apply (waitForRegion_without_timeout_never_gives_up nat nat unit tt sameName
           sessionLookup sessionTime (PString "menu")).
  intros w. exists w. reflexivity.
Defined.

Lemma waitForRegion_indexed_region_never_found_witness :
  @Rejected JsValue
    (JError ("Unable to find element at region " ++ quote ++ "a,2" ++ quote)) =
  Rejected
    (JError ("Unable to find element at region " ++ quote ++
             toString (PArray [PString "a"; PNumber 2]) ++ quote)).
Proof.
  apply (waitForRegion_indexed_region_never_found nat nat unit tt sameName
           sessionLookup sessionTime (PArray [PString "a"; PNumber 2])
           ltac:(intros w; exists 3%nat, w; reflexivity)
           1%nat (Some 1) 0%nat _ 2%nat).
  reflexivity.
Defined.

Lemma selectOption_unknown_value_witness :
  selectOption nat unit colourOptions colourTexts echo 7%nat "blue" tt =
  Some (Rejected (JError ("Could not find option value " ++ quote ++ "blue" ++
                          quote ++ ".")),
        tt).
Proof.
  apply (selectOption_unknown_value nat unit colourOptions colourTexts echo
           7%nat "blue" tt [10; 11; 12]%nat tt ["red"; "green"; "green"] tt).
  - reflexivity.
  - reflexivity.
  - intros [H|[H|[H|[]]]]; discriminate.
Defined.

Lemma selectOption_first_match_witness :
  selectOption nat unit colourOptions colourTexts echo 7%nat "green" tt =
  Some (Fulfilled (JNumber (Num 11)), tt).
Proof.
  apply (selectOption_first_match nat unit colourOptions colourTexts echo
           7%nat "green" tt [10; 11; 12]%nat tt ["red"] ["green"] tt).
  - reflexivity.
  - reflexivity.
  - intros [H|[]]; discriminate.
Defined.

Lemma selectOption_lookup_failure_witness :
  selectOption nat unit staleOptions colourTexts echo 7%nat "green" tt =
  Some (Rejected (JError "stale element reference"), tt).
Proof.
  apply (selectOption_lookup_failure nat unit staleOptions colourTexts echo
           7%nat "green" tt (JError "stale element reference") tt).
  left. reflexivity.
Defined.

End DriverOpsFacts.
